(** * Task manager (after-review version): a shallow embedding and its properties

    The development follows [src/after-review/task_manager.py].  The SQLite
    file behind a [TaskManager] is a value of type [database]: the rows of the
    table [tasks] in rowid order together with the AUTOINCREMENT counter kept
    in [sqlite_sequence].  Every public method is a computation in a small
    state-and-exception monad [M]; parameters bound through [?] placeholders
    are passed as values, exactly as the [sqlite3] module binds them.

    Conventions of the model:
    - a Python [str] is a [string]; each [ascii] stands for one code point
      below 256, and [len] is [String.length];
    - [datetime.now().isoformat()] is read from the clock: the reading is the
      first argument [now] of [add_task] and [update_task];
    - a task id is an SQLite INTEGER, modelled as a [Z].  The [sqlite3]
      module binds a Python int only if it lies in the signed 64-bit range
      [int64] and raises [OverflowError] otherwise; that raise is not
      modelled, so statements about an arbitrary [task_id] assume
      [int64 task_id];
    - the storage engine executes every statement: I/O failures, locking and
      engine limits are outside the model, so no statement raises
      [sqlite3.Error] and the [DatabaseError] branch of [_get_connection] is
      never taken;
    - [LIKE] has SQLite's default behaviour (no [case_sensitive_like], no
      ESCAPE clause, pattern limit 50000 bytes, texts read as C strings);
    - logging is not modelled. *)

From Stdlib Require Import List String Ascii ZArith NArith Bool Lia.
From Stdlib Require Import Sorting.Sorted Sorting.Permutation.
From Stdlib Require OrderedTypeEx.
Import ListNotations.

Local Open Scope string_scope.
Local Open Scope list_scope.

(** ** Python string operations *)

Module Py.

(** [str.isspace] on one code point below 256: TAB..CR, FS..US, space,
    NEL (0x85) and NBSP (0xA0). *)
Definition isspace (c : ascii) : bool :=
  let n := N_of_ascii c in
  ((9 <=? n) && (n <=? 13) || (28 <=? n) && (n <=? 32) || (n =? 133) || (n =? 160))%N.

(** [str.lstrip()] *)
Fixpoint lstrip (s : string) : string :=
  match s with
  | EmptyString => EmptyString
  | String c s' => if isspace c then lstrip s' else s
  end.

(** [str.rstrip()] *)
Fixpoint rstrip (s : string) : string :=
  match s with
  | EmptyString => EmptyString
  | String c s' =>
      match rstrip s' with
      | EmptyString => if isspace c then EmptyString else String c EmptyString
      | r => String c r
      end
  end.

(** [str.strip()] *)
Definition strip (s : string) : string := rstrip (lstrip s).

(** [term in s] *)
Fixpoint contains (term s : string) : bool :=
  String.prefix term s ||
  match s with
  | EmptyString => false
  | String _ s' => contains term s'
  end.

End Py.

(** ** The status enumeration and the exception classes *)

Inductive TaskStatus := PENDING | IN_PROGRESS | COMPLETED | HIGH | URGENT.

Definition value (s : TaskStatus) : string :=
  match s with
  | PENDING => "pending"
  | IN_PROGRESS => "in_progress"
  | COMPLETED => "completed"
  | HIGH => "high"
  | URGENT => "urgent"
  end.

(** Iteration order of [for status in TaskStatus]. *)
Definition all_TaskStatus : list TaskStatus :=
  [PENDING; IN_PROGRESS; COMPLETED; HIGH; URGENT].

(** [ValidationError] and [DatabaseError] are the two subclasses of
    [TaskManagerError]; [Sqlite3Error] stands for [sqlite3.Error] and
    [AttributeError] is the built-in raised by [None.strip()]. *)
Inductive exn :=
| ValidationError (msg : string)
| DatabaseError (msg : string)
| Sqlite3Error (msg : string)
| AttributeError.

Inductive outcome (A : Type) :=
| Return (a : A)
| Raise (e : exn).
Arguments Return {A} a.
Arguments Raise {A} e.

(** ** The table [tasks] *)

Module Task.

(** One row, as [dict(row)] presents it.  [description] and [updated_at] are
    the two nullable columns. *)
Record t := mk {
  id : Z;
  title : string;
  description : option string;
  status : string;
  created_at : string;
  updated_at : option string
}.

End Task.

Record database := mkDatabase {
  tasks : list Task.t;   (* rows in rowid order *)
  seq : Z                (* sqlite_sequence: largest rowid ever assigned *)
}.

(** A fresh database file after [_initialize_database]. *)
Definition empty_db : database := {| tasks := []; seq := 0 |}.

(** ** The monad of the methods *)

Definition M (A : Type) : Type := database -> outcome A * database.

Definition ret {A} (a : A) : M A := fun db => (Return a, db).

Definition raise {A} (e : exn) : M A := fun db => (Raise e, db).

Definition bind {A B} (m : M A) (k : A -> M B) : M B :=
  fun db =>
    match m db with
    | (Return a, db') => k a db'
    | (Raise e, db') => (Raise e, db')
    end.

Definition lift {A} (o : outcome A) : M A := fun db => (o, db).

Notation "x <- m ;; k" := (bind m (fun x => k))
  (at level 61, m at next level, right associativity).
Notation "m ;;; k" := (bind m (fun _ => k))
  (at level 61, right associativity).

(** [with self._get_connection() as conn: body]: the body's writes are
    committed when it returns; an [sqlite3.Error] rolls them back and is
    re-raised as [DatabaseError]; any other exception passes through and the
    connection is closed without a commit. *)
Definition _get_connection {A} (body : M A) : M A :=
  fun db =>
    match body db with
    | (Return a, db') => (Return a, db')
    | (Raise (Sqlite3Error e), _) =>
        (Raise (DatabaseError ("Database operation failed: " ++ e)), db)
    | (Raise e, _) => (Raise e, db)
    end.

(** ** SQL statements *)

Module Sql.

(** ASCII case folding used by LIKE: only A..Z are folded. *)
Definition fold (c : ascii) : ascii :=
  let n := N_of_ascii c in
  if ((65 <=? n) && (n <=? 90))%N then ascii_of_N (n + 32) else c.

(** SQLite's [patternCompare] for LIKE on two NUL-free texts: [%] matches any
    run of characters, [_] matches one character, any other character matches
    itself up to ASCII case; no escape character. *)
Fixpoint patternCompare (p s : string) : bool :=
  match p with
  | EmptyString =>
      match s with
      | EmptyString => true
      | String _ _ => false
      end
  | String c p' =>
      if Ascii.eqb c "%" then
        (fix any (s : string) : bool :=
           patternCompare p' s ||
           match s with
           | EmptyString => false
           | String _ s' => any s'
           end) s
      else
        match s with
        | EmptyString => false
        | String d s' =>
            (Ascii.eqb c "_" || Ascii.eqb (fold c) (fold d)) &&
            patternCompare p' s'
        end
  end.

(** A TEXT value as the LIKE function reads it: a C string, which ends at the
    first NUL character. *)
Fixpoint until_nul (s : string) : string :=
  match s with
  | EmptyString => EmptyString
  | String c s' =>
      if Ascii.eqb c "000" then EmptyString else String c (until_nul s')
  end.

(** Length in bytes of the UTF-8 encoding of a text of code points below
    256. *)
Fixpoint utf8_bytes (s : string) : N :=
  match s with
  | EmptyString => 0
  | String c s' => (if (N_of_ascii c <? 128)%N then 1 else 2) + utf8_bytes s'
  end%N.

(** [s LIKE p] as SQLite's [likeFunc] evaluates it for one row: a pattern of
    more than 50000 bytes (SQLITE_LIMIT_LIKE_PATTERN_LENGTH) is an error;
    otherwise pattern and text are compared as C strings. *)
Definition like (p s : string) : outcome bool :=
  if (50000 <? utf8_bytes p)%N then
    Raise (Sqlite3Error "LIKE or GLOB pattern too complex")
  else Return (patternCompare (until_nul p) (until_nul s)).

(** Place [r] in a list that is descending in [created_at]; the comparison is
    the BINARY collation on TEXT. *)
Fixpoint insert_desc (r : Task.t) (l : list Task.t) : list Task.t :=
  match l with
  | [] => [r]
  | x :: l' =>
      if String.ltb (Task.created_at r) (Task.created_at x)
      then x :: insert_desc r l'
      else r :: l
  end.

(** [ORDER BY created_at DESC].  SQL leaves the relative order of rows with
    equal keys open; here they stay in scan order. *)
Definition order_by_created_at_desc (l : list Task.t) : list Task.t :=
  fold_right insert_desc [] l.

(** [SELECT * FROM tasks WHERE w ORDER BY created_at DESC] with [fetchall]. *)
Definition select_all (w : Task.t -> bool) : M (list Task.t) :=
  fun db => (Return (order_by_created_at_desc (filter w (tasks db))), db).

(** The table scan of a query whose WHERE clause calls a function that can
    fail: the rows are visited in rowid order and the first error ends the
    statement. *)
Fixpoint scan (w : Task.t -> outcome bool) (l : list Task.t)
  : outcome (list Task.t) :=
  match l with
  | [] => Return []
  | r :: l' =>
      match w r with
      | Raise e => Raise e
      | Return b =>
          match scan w l' with
          | Raise e => Raise e
          | Return rs => Return (if b then r :: rs else rs)
          end
      end
  end.

(** [SELECT * FROM tasks WHERE w ORDER BY created_at DESC] with [fetchall],
    for such a WHERE clause. *)
Definition select_where (w : Task.t -> outcome bool) : M (list Task.t) :=
  fun db =>
    match scan w (tasks db) with
    | Return rs => (Return (order_by_created_at_desc rs), db)
    | Raise e => (Raise e, db)
    end.

(** [SELECT * FROM tasks WHERE id = ?] with [fetchone].  [task_id] is an
    integer the [sqlite3] module can bind, that is one in the signed 64-bit
    range; for any other Python int the binding raises [OverflowError] before
    the statement runs, which is outside the model. *)
Definition select_by_id (task_id : Z) : M (option Task.t) :=
  fun db => (Return (find (fun r => Task.id r =? task_id)%Z (tasks db)), db).

(** [INSERT INTO tasks (title, description, status, created_at) VALUES
    (?, ?, ?, ?)]; the result is [cursor.lastrowid]. *)
Definition insert (title description status created_at : string) : M Z :=
  fun db =>
    let rowid := (seq db + 1)%Z in
    (Return rowid,
     {| tasks := tasks db ++
                 [Task.mk rowid title (Some description) status created_at None];
        seq := rowid |}).

(** [UPDATE tasks SET title = ?, description = ?, status = ?, updated_at = ?
    WHERE id = ?] *)
Definition update (title description status updated_at : string) (task_id : Z)
  : M unit :=
  fun db =>
    (Return tt,
     {| tasks :=
          map (fun r =>
                 if (Task.id r =? task_id)%Z
                 then Task.mk (Task.id r) title (Some description) status
                              (Task.created_at r) (Some updated_at)
                 else r)
              (tasks db);
        seq := seq db |}).

(** [DELETE FROM tasks WHERE id = ?]; the result is [cursor.rowcount].
    [task_id] is in the signed 64-bit range, as for [select_by_id]. *)
Definition delete (task_id : Z) : M nat :=
  fun db =>
    let kept := filter (fun r => negb (Task.id r =? task_id)%Z) (tasks db) in
    (Return (List.length (tasks db) - List.length kept),
     {| tasks := kept; seq := seq db |}).

End Sql.

(** ** The methods of [TaskManager] *)

Definition valid_statuses : list string := map value all_TaskStatus.

Definition _validate_task_data (title status : string)
    (description : option string) : outcome unit :=
  if (title =? "") || (Py.strip title =? "") then
    Raise (ValidationError "Title cannot be empty")
  else if (200 <? String.length title)%nat then
    Raise (ValidationError "Title too long (max 200 characters)")
  else if match description with
          | Some d => negb (d =? "") && (1000 <? String.length d)%nat
          | None => false
          end then
    Raise (ValidationError "Description too long (max 1000 characters)")
  else if negb (existsb (String.eqb status) valid_statuses) then
    Raise (ValidationError
             ("Invalid status. Must be one of: " ++
              String.concat ", " valid_statuses))
  else Return tt.

Definition add_task (now : string) (title description status : string) : M Z :=
  lift (_validate_task_data title status (Some description)) ;;;
  _get_connection
    (Sql.insert (Py.strip title) (Py.strip description) status now).

Definition get_all_tasks : M (list Task.t) :=
  _get_connection (Sql.select_all (fun _ => true)).

Definition get_task_by_id (task_id : Z) : M (option Task.t) :=
  _get_connection (Sql.select_by_id task_id).

Definition update_task (now : string) (task_id : Z)
    (title description status : option string) : M bool :=
  existing_task <- get_task_by_id task_id ;;
  match existing_task with
  | None => ret false
  | Some existing_task =>
      let new_title :=
        match title with Some t => t | None => Task.title existing_task end in
      let new_description :=
        match description with
        | Some d => Some d
        | None => Task.description existing_task
        end in
      let new_status :=
        match status with Some s => s | None => Task.status existing_task end in
      lift (_validate_task_data new_title new_status new_description) ;;;
      _get_connection
        match new_description with
        | None => raise AttributeError
        | Some d =>
            Sql.update (Py.strip new_title) (Py.strip d) new_status now task_id ;;;
            ret true
        end
  end.

Definition delete_task (task_id : Z) : M bool :=
  _get_connection
    (rowcount <- Sql.delete task_id ;;
     ret (0 <? rowcount)%nat).

Definition search_tasks (search_term : string) : M (list Task.t) :=
  _get_connection
    (Sql.select_where
       (fun r => Sql.like ("%" ++ search_term ++ "%") (Task.title r))).

Definition filter_by_status (status : string) : M (list Task.t) :=
  if negb (existsb (String.eqb status) valid_statuses) then
    raise (ValidationError ("Invalid status: " ++ status))
  else
    _get_connection (Sql.select_all (fun r => Task.status r =? status)).

Definition get_priority_tasks : M (list Task.t) :=
  _get_connection
    (Sql.select_all
       (fun r => (Task.status r =? value HIGH) || (Task.status r =? value URGENT))).

(** Store states reachable from a fresh database through the writing
    methods, whatever their arguments and whether or not the call raises. *)
Inductive reachable : database -> Prop :=
| reachable_init : reachable empty_db
| reachable_add now title description status db :
    reachable db ->
    reachable (snd (add_task now title description status db))
| reachable_update now task_id title description status db :
    reachable db ->
    reachable (snd (update_task now task_id title description status db))
| reachable_delete task_id db :
    reachable db ->
    reachable (snd (delete_task task_id db)).

(** ** Vocabulary of the statements *)

(** A string that does not begin with whitespace. *)
Definition head_not_space (s : string) : Prop :=
  match s with
  | EmptyString => True
  | String c _ => Py.isspace c = false
  end.

(** The four conditions under which the source raises, on a [str]
    description. *)
Definition invalid (title description status : string) : Prop :=
  Py.strip title = "" \/
  200 < String.length title \/
  1000 < String.length description \/
  ~ In status valid_statuses.

(** [a] may stand before [b] in a newest-first listing. *)
Definition newer_first (a b : Task.t) : Prop :=
  String.leb (Task.created_at b) (Task.created_at a) = true.

(** The row that [update_task] writes over [r]. *)
Definition updated (now : string) (title description status : string)
    (r : Task.t) : Task.t :=
  Task.mk (Task.id r) (Py.strip title) (Some (Py.strip description)) status
          (Task.created_at r) (Some now).

(** A stored row carries an id already handed out, trimmed text, and values
    that pass validation again. *)
Definition row_ok (bound : Z) (r : Task.t) : Prop :=
  (0 < Task.id r <= bound)%Z /\
  Py.strip (Task.title r) = Task.title r /\
  exists d,
    Task.description r = Some d /\
    Py.strip d = d /\
    _validate_task_data (Task.title r) (Task.status r) (Some d) = Return tt.

Definition wf (db : database) : Prop :=
  Forall (row_ok (seq db)) (tasks db) /\
  NoDup (map Task.id (tasks db)) /\
  (0 <= seq db)%Z.

(** A run of [n] copies of the character [c], as ["x" * n]. *)
Fixpoint times (c : ascii) (n : nat) : string :=
  match n with
  | O => EmptyString
  | S n' => String c (times c n')
  end.

(** A search term with a LIKE wildcard in it. *)
Fixpoint has_wildcard (t : string) : bool :=
  match t with
  | EmptyString => false
  | String c t' => Ascii.eqb c "%" || Ascii.eqb c "_" || has_wildcard t'
  end.

(** ASCII lower-casing of a whole string. *)
Fixpoint lower (s : string) : string :=
  match s with
  | EmptyString => EmptyString
  | String c s' => String (Sql.fold c) (lower s')
  end.

(** The integers the [sqlite3] module binds as an SQLite INTEGER. *)
Definition int64 (z : Z) : Prop := (- 2 ^ 63 <= z < 2 ^ 63)%Z.

(** A text with a NUL character in it. *)
Fixpoint has_nul (s : string) : bool :=
  match s with
  | EmptyString => false
  | String c s' => Ascii.eqb c "000" || has_nul s'
  end.

(** A string that does not end with whitespace. *)
Fixpoint last_not_space (s : string) : Prop :=
  match s with
  | EmptyString => True
  | String c s' =>
      match s' with
      | EmptyString => Py.isspace c = false
      | String _ _ => last_not_space s'
      end
  end.

(** [evolves db db']: [db'] comes from [db] by calls of the writing methods,
    whatever their arguments and whether or not they raise. *)
Inductive evolves (db : database) : database -> Prop :=
| evolves_refl : evolves db db
| evolves_add now title description status db' :
    evolves db db' ->
    evolves db (snd (add_task now title description status db'))
| evolves_update now task_id title description status db' :
    evolves db db' ->
    evolves db (snd (update_task now task_id title description status db'))
| evolves_delete task_id db' :
    evolves db db' ->
    evolves db (snd (delete_task task_id db')).

(** * Properties *)

(** ** The definitions on sample inputs *)

Example strip_sample : Py.strip "  Review PR	 " = "Review PR".
Proof. reflexivity. Qed.

Example strip_blank_sample : Py.strip "   " = "".
Proof. reflexivity. Qed.

Example like_sample :
  Sql.patternCompare "%py%" "Happy hour" = true /\
  Sql.patternCompare "%py%" "PYTHON" = true /\
  Sql.patternCompare "%py%" "Java" = false /\
  Sql.patternCompare "%a_c%" "xxabcxx" = true /\
  Sql.like "%py%" "Happy hour" = Return true /\
  Sql.until_nul (String "a" (String "000" "b")) = "a" /\
  Sql.utf8_bytes "%py%" = 4%N.
Proof. repeat split. Qed.

Example search_tasks_sample :
  let db :=
    snd (add_task "2024-05-01T10:00:00" (String "a" (String "000" "b")) ""
           "pending" empty_db) in
  search_tasks "A" db = (Return (tasks db), db) /\
  search_tasks "b" db = (Return [], db) /\
  search_tasks "_" db = (Return (tasks db), db) /\
  search_tasks (times "x" (N.to_nat 49999)) db
  = (Raise (DatabaseError
              "Database operation failed: LIKE or GLOB pattern too complex"),
     db) /\
  search_tasks (times "x" (N.to_nat 49999)) empty_db = (Return [], empty_db).
Proof. vm_compute. repeat split. Qed.

Example validate_sample :
  _validate_task_data "Title" "invalid_status" (Some "Desc") =
  Raise (ValidationError
           "Invalid status. Must be one of: pending, in_progress, completed, high, urgent").
Proof. reflexivity. Qed.

Example order_by_sample :
  map Task.id
    (Sql.order_by_created_at_desc
       [Task.mk 1 "a" None "pending" "2024-05-01T10:00:00" None;
        Task.mk 2 "b" None "pending" "2024-05-03T10:00:00" None;
        Task.mk 3 "c" None "pending" "2024-05-02T10:00:00.000001" None;
        Task.mk 4 "d" None "pending" "2024-05-02T10:00:00" None])
  = [2; 3; 4; 1]%Z.
Proof. reflexivity. Qed.

(** ** Facts about [strip] *)

Section StripFacts.

Lemma lstrip_length s : String.length (Py.lstrip s) <= String.length s.
Proof.
  induction s as [|c s IH]; simpl; [lia|].
  destruct (Py.isspace c); simpl; lia.
Qed.

Lemma rstrip_length s : String.length (Py.rstrip s) <= String.length s.
Proof.
  induction s as [|c s IH]; simpl; [lia|].
  destruct (Py.rstrip s) as [|d r]; [destruct (Py.isspace c)|]; simpl in *; lia.
Qed.

Lemma strip_length s : String.length (Py.strip s) <= String.length s.
Proof.
  unfold Py.strip.
  pose proof (rstrip_length (Py.lstrip s)). pose proof (lstrip_length s). lia.
Qed.

Lemma lstrip_head s : head_not_space (Py.lstrip s).
Proof.
  induction s as [|c s IH]; simpl; [exact I|].
  destruct (Py.isspace c) eqn:E; [exact IH | exact E].
Qed.

Lemma lstrip_fixed s : head_not_space s -> Py.lstrip s = s.
Proof. destruct s as [|c s]; simpl; [reflexivity|]. now intros ->. Qed.

Lemma rstrip_head s : head_not_space s -> head_not_space (Py.rstrip s).
Proof.
  destruct s as [|c s]; simpl; [trivial|]. intros E.
  destruct (Py.rstrip s); [rewrite E|]; exact E.
Qed.

Lemma rstrip_idem s : Py.rstrip (Py.rstrip s) = Py.rstrip s.
Proof.
  induction s as [|c s IH]; simpl; [reflexivity|].
  destruct (Py.rstrip s) as [|d r] eqn:E.
  - destruct (Py.isspace c) eqn:Ec; simpl; [reflexivity | now rewrite Ec].
  - change (Py.rstrip (String c (String d r))) with
      (match Py.rstrip (String d r) with
       | EmptyString => if Py.isspace c then EmptyString else String c EmptyString
       | x => String c x
       end).
    now rewrite IH.
Qed.

Lemma strip_idem s : Py.strip (Py.strip s) = Py.strip s.
Proof.
  unfold Py.strip.
  rewrite (lstrip_fixed (Py.rstrip (Py.lstrip s))).
  - apply rstrip_idem.
  - apply rstrip_head, lstrip_head.
Qed.

Lemma strip_empty : Py.strip "" = "".
Proof. reflexivity. Qed.

End StripFacts.

(** ** Facts about validation *)

Section ValidationFacts.

Lemma in_valid_statuses status :
  existsb (String.eqb status) valid_statuses = true <-> In status valid_statuses.
Proof.
  rewrite existsb_exists. split.
  - intros (x & Hin & Hx). apply String.eqb_eq in Hx. now subst.
  - intros Hin. exists status. split; [assumption | apply String.eqb_refl].
Qed.

Lemma validate_returns title status description :
  _validate_task_data title status (Some description) = Return tt <->
  ~ invalid title description status.
Proof.
  unfold _validate_task_data, invalid.
  destruct (String.eqb_spec title "") as [->|Ht]; cbn [orb].
  { split; [discriminate | intros H; exfalso; apply H; left; reflexivity]. }
  destruct (String.eqb_spec (Py.strip title) "") as [Hs|Hs].
  { split; [discriminate | intros H; exfalso; apply H; now left]. }
  destruct (Nat.ltb_spec 200 (String.length title)) as [Hl|Hl].
  { split; [discriminate | intros H; exfalso; apply H; right; now left]. }
  assert (Hd : (negb (description =? "") &&
                (1000 <? String.length description)%nat) = true <->
               1000 < String.length description).
  { destruct (String.eqb_spec description "") as [->|Hd]; cbn [negb andb].
    - cbn [String.length]. split; [discriminate | lia].
    - apply Nat.ltb_lt. }
  destruct (negb (description =? "") &&
            (1000 <? String.length description)%nat).
  { split; [discriminate|]. intros H; exfalso; apply H.
    right; right; left. now apply Hd. }
  pose proof (in_valid_statuses status) as Hv.
  destruct (existsb (String.eqb status) valid_statuses); cbn [negb].
  - split; [|reflexivity].
    intros _ [H|[H|[H|H]]]; [congruence | lia | | apply H; now apply Hv].
    apply Hd in H. discriminate.
  - split; [discriminate|]. intros H. exfalso. apply H. right; right; right.
    intros Hin. apply Hv in Hin. discriminate.
Qed.

(** Validation either returns or raises [ValidationError], nothing else. *)
Lemma validate_cases title status description :
  _validate_task_data title status description = Return tt \/
  exists msg,
    _validate_task_data title status description = Raise (ValidationError msg).
Proof.
  unfold _validate_task_data.
  repeat match goal with
         | |- context [if ?b then _ else _] => destruct b
         end; eauto.
Qed.

Lemma invalid_dec title description status :
  invalid title description status \/ ~ invalid title description status.
Proof.
  destruct (_validate_task_data title status (Some description)) as [[]|e] eqn:E.
  - right. now apply validate_returns.
  - left. unfold invalid.
    destruct (string_dec (Py.strip title) "") as [|H1]; [now left|].
    destruct (Nat.ltb_spec 200 (String.length title)) as [|H2]; [right; now left|].
    destruct (Nat.ltb_spec 1000 (String.length description)) as [|H3];
      [right; right; now left|].
    destruct (in_dec string_dec status valid_statuses) as [H4|H4];
      [|right; right; now right].
    exfalso.
    assert (R : _validate_task_data title status (Some description) = Return tt).
    { apply validate_returns. intros [H|[H|[H|H]]]; [congruence|lia|lia|tauto]. }
    congruence.
Qed.

Lemma validate_raises title status description :
  (exists msg, _validate_task_data title status (Some description)
               = Raise (ValidationError msg)) <->
  invalid title description status.
Proof.
  split.
  - intros [msg E]. destruct (invalid_dec title description status) as [H|H];
      [assumption|].
    apply validate_returns in H. congruence.
  - intros H.
    destruct (validate_cases title status (Some description)) as [R|R];
      [|assumption].
    apply validate_returns in R. contradiction.
Qed.

End ValidationFacts.

(** ** Facts about [ORDER BY created_at DESC] *)

Section OrderFacts.

Lemma ltb_leb a b : String.ltb a b = true -> String.leb a b = true.
Proof. unfold String.ltb, String.leb. now destruct (String.compare a b). Qed.

Lemma not_ltb_leb a b : String.ltb a b = false -> String.leb b a = true.
Proof.
  unfold String.ltb, String.leb. rewrite (String.compare_antisym b a).
  now destruct (String.compare a b).
Qed.

Lemma leb_trans a b c :
  String.leb a b = true -> String.leb b c = true -> String.leb a c = true.
Proof.
  unfold String.leb. intros Hab Hbc.
  destruct (String.compare a b) eqn:Eab; [| |discriminate].
  { apply String.compare_eq_iff in Eab. now subst. }
  destruct (String.compare b c) eqn:Ebc; [| |discriminate].
  { apply String.compare_eq_iff in Ebc. subst. now rewrite Eab. }
  apply OrderedTypeEx.String_as_OT.cmp_lt in Eab, Ebc.
  pose proof (OrderedTypeEx.String_as_OT.lt_trans _ _ _ Eab Ebc) as Hac.
  apply OrderedTypeEx.String_as_OT.cmp_lt in Hac.
  unfold OrderedTypeEx.String_as_OT.cmp in Hac. now rewrite Hac.
Qed.

Lemma newer_first_trans a b c :
  newer_first a b -> newer_first b c -> newer_first a c.
Proof. unfold newer_first. intros Hab Hbc. exact (leb_trans _ _ _ Hbc Hab). Qed.

Lemma insert_desc_perm r l : Permutation (Sql.insert_desc r l) (r :: l).
Proof.
  induction l as [|x l IH]; simpl; [reflexivity|].
  destruct (String.ltb _ _); [|reflexivity].
  rewrite IH. apply perm_swap.
Qed.

Lemma order_by_perm l : Permutation (Sql.order_by_created_at_desc l) l.
Proof.
  induction l as [|x l IH]; simpl; [constructor|].
  rewrite insert_desc_perm. now constructor.
Qed.

Lemma insert_desc_hd x r l :
  newer_first x r -> HdRel newer_first x l ->
  HdRel newer_first x (Sql.insert_desc r l).
Proof.
  intros Hxr Hl. destruct l as [|y l]; simpl; [now constructor|].
  destruct (String.ltb _ _); constructor; [|assumption].
  now inversion Hl.
Qed.

Lemma insert_desc_sorted r l :
  Sorted newer_first l -> Sorted newer_first (Sql.insert_desc r l).
Proof.
  induction 1 as [|x l Hs IH Hh]; simpl; [repeat constructor|].
  destruct (String.ltb (Task.created_at r) (Task.created_at x)) eqn:E.
  - constructor; [assumption|].
    apply insert_desc_hd; [|assumption]. now apply ltb_leb.
  - constructor; [now constructor|]. constructor. now apply not_ltb_leb.
Qed.

Lemma order_by_sorted l :
  StronglySorted newer_first (Sql.order_by_created_at_desc l).
Proof.
  apply Sorted_StronglySorted; [exact newer_first_trans|].
  induction l as [|x l IH]; simpl; [constructor|].
  now apply insert_desc_sorted.
Qed.

Lemma order_by_in r l : In r (Sql.order_by_created_at_desc l) <-> In r l.
Proof.
  split; apply Permutation_in;
    [apply order_by_perm | apply Permutation_sym, order_by_perm].
Qed.

End OrderFacts.

(** ** Equations of the methods *)

Section MethodEquations.

Lemma add_task_returns now title description status db :
  _validate_task_data title status (Some description) = Return tt ->
  add_task now title description status db =
  (Return (seq db + 1)%Z,
   {| tasks := tasks db ++
               [Task.mk (seq db + 1) (Py.strip title)
                        (Some (Py.strip description)) status now None];
      seq := (seq db + 1)%Z |}).
Proof. unfold add_task, bind, lift. now intros ->. Qed.

Lemma add_task_raises now title description status db e :
  _validate_task_data title status (Some description) = Raise e ->
  add_task now title description status db = (Raise e, db).
Proof. unfold add_task, bind, lift. now intros ->. Qed.

Lemma get_task_by_id_eq task_id db :
  get_task_by_id task_id db =
  (Return (find (fun r => Task.id r =? task_id)%Z (tasks db)), db).
Proof. reflexivity. Qed.

Lemma delete_task_eq task_id db :
  delete_task task_id db =
  let kept := filter (fun r => negb (Task.id r =? task_id)%Z) (tasks db) in
  (Return (0 <? List.length (tasks db) - List.length kept)%nat,
   {| tasks := kept; seq := seq db |}).
Proof. reflexivity. Qed.

Lemma update_task_missing now task_id title description status db :
  find (fun r => Task.id r =? task_id)%Z (tasks db) = None ->
  update_task now task_id title description status db = (Return false, db).
Proof. unfold update_task, bind. rewrite get_task_by_id_eq. now intros ->. Qed.

Lemma update_task_raises now task_id title description status db r e :
  find (fun r => Task.id r =? task_id)%Z (tasks db) = Some r ->
  _validate_task_data
    (match title with Some t => t | None => Task.title r end)
    (match status with Some s => s | None => Task.status r end)
    (match description with Some d => Some d | None => Task.description r end)
  = Raise e ->
  update_task now task_id title description status db = (Raise e, db).
Proof.
  unfold update_task, bind, lift. rewrite get_task_by_id_eq.
  now intros -> ->.
Qed.

Lemma update_task_returns now task_id title description status db r d :
  find (fun r => Task.id r =? task_id)%Z (tasks db) = Some r ->
  match description with Some d => Some d | None => Task.description r end
  = Some d ->
  _validate_task_data
    (match title with Some t => t | None => Task.title r end)
    (match status with Some s => s | None => Task.status r end)
    (Some d)
  = Return tt ->
  update_task now task_id title description status db =
  (Return true,
   {| tasks :=
        map (fun x =>
               if (Task.id x =? task_id)%Z
               then updated now
                      (match title with Some t => t | None => Task.title r end)
                      d
                      (match status with Some s => s | None => Task.status r end)
                      x
               else x)
            (tasks db);
      seq := seq db |}).
Proof.
  unfold update_task, bind, lift. rewrite get_task_by_id_eq.
  intros -> -> ->. reflexivity.
Qed.

End MethodEquations.

(** ** The invariant of reachable stores *)

Section Invariant.

Lemma row_ok_mono b b' r : (b <= b')%Z -> row_ok b r -> row_ok b' r.
Proof. unfold row_ok. intros Hb (Hid & H). split; [lia | exact H]. Qed.

Lemma validate_strip title description status :
  _validate_task_data title status (Some description) = Return tt ->
  _validate_task_data (Py.strip title) status (Some (Py.strip description))
  = Return tt.
Proof.
  rewrite !validate_returns. unfold invalid. intros H [H1|[H1|[H1|H1]]].
  - apply H. left. now rewrite strip_idem in H1.
  - apply H. right; left. pose proof (strip_length title). lia.
  - apply H. right; right; left. pose proof (strip_length description). lia.
  - apply H. now right; right; right.
Qed.

Lemma wf_empty : wf empty_db.
Proof. repeat split; simpl; [constructor | constructor | lia]. Qed.

Lemma wf_add now title description status db :
  wf db -> wf (snd (add_task now title description status db)).
Proof.
  intros (Hrows & Hids & Hseq).
  destruct (validate_cases title status (Some description)) as [R|[msg R]].
  2:{ rewrite (add_task_raises _ _ _ _ _ _ R). now repeat split. }
  rewrite (add_task_returns _ _ _ _ _ R). unfold wf. cbn [snd tasks seq].
  repeat split; [| |lia].
  - apply Forall_app. split.
    + eapply Forall_impl; [|exact Hrows]. intros r. apply row_ok_mono. lia.
    + constructor; [|constructor]. unfold row_ok. cbn. split; [lia|].
      split; [apply strip_idem|]. exists (Py.strip description).
      repeat split; [apply strip_idem | now apply validate_strip].
  - rewrite map_app. cbn [map Task.id].
    apply NoDup_app; [assumption | repeat constructor; intros [] |].
    intros z Hz [<-|[]]. apply in_map_iff in Hz. destruct Hz as (r & Er & Hr).
    rewrite Forall_forall in Hrows. destruct (Hrows r Hr) as (Hid & _). lia.
Qed.

Lemma update_task_cases now task_id title description status db :
  snd (update_task now task_id title description status db) = db \/
  exists r d,
    find (fun r => Task.id r =? task_id)%Z (tasks db) = Some r /\
    match description with Some d => Some d | None => Task.description r end
    = Some d /\
    _validate_task_data
      (match title with Some t => t | None => Task.title r end)
      (match status with Some s => s | None => Task.status r end)
      (Some d) = Return tt /\
    update_task now task_id title description status db =
    (Return true,
     {| tasks :=
          map (fun x =>
                 if (Task.id x =? task_id)%Z
                 then updated now
                        (match title with Some t => t | None => Task.title r end)
                        d
                        (match status with Some s => s | None => Task.status r end)
                        x
                 else x)
              (tasks db);
        seq := seq db |}).
Proof.
  destruct (find (fun r => Task.id r =? task_id)%Z (tasks db)) as [r|] eqn:F.
  2:{ left. now rewrite (update_task_missing _ _ _ _ _ _ F). }
  destruct (match description with
            | Some d => Some d | None => Task.description r end)
    as [d|] eqn:D.
  - destruct (validate_cases
                (match title with Some t => t | None => Task.title r end)
                (match status with Some s => s | None => Task.status r end)
                (Some d)) as [R|[msg R]].
    + right. exists r, d. repeat split; try assumption.
      now apply update_task_returns.
    + left. rewrite <- D in R.
      now rewrite (update_task_raises _ _ _ _ _ _ _ _ F R).
  - left. unfold update_task, bind, lift. rewrite get_task_by_id_eq, F, D.
    destruct (_validate_task_data _ _ None); reflexivity.
Qed.

Lemma wf_update now task_id title description status db :
  wf db -> wf (snd (update_task now task_id title description status db)).
Proof.
  intros Hwf.
  destruct (update_task_cases now task_id title description status db)
    as [->|(r & d & F & D & R & ->)]; [assumption|].
  destruct Hwf as (Hrows & Hids & Hseq). unfold wf. cbn [snd tasks seq].
  repeat split; [| |assumption].
  - apply Forall_map. eapply Forall_impl; [|exact Hrows].
    intros x Hx. destruct (Task.id x =? task_id)%Z; [|assumption].
    destruct Hx as (Hid & _). unfold row_ok, updated. cbn.
    split; [assumption|]. split; [apply strip_idem|].
    exists (Py.strip d). repeat split; [apply strip_idem|].
    now apply validate_strip.
  - rewrite map_map. erewrite map_ext; [exact Hids|].
    intros x. cbn. now destruct (Task.id x =? task_id)%Z.
Qed.

Lemma NoDup_map_filter {A B} (f : A -> B) (p : A -> bool) l :
  NoDup (map f l) -> NoDup (map f (filter p l)).
Proof.
  induction l as [|x l IH]; simpl; [trivial|].
  intros H. inversion H as [|? ? Hx Hl]; subst.
  destruct (p x); [|now apply IH]. simpl. constructor; [|now apply IH].
  intros Hin. apply Hx. apply in_map_iff in Hin.
  destruct Hin as (y & Ey & Hy). apply filter_In in Hy.
  apply in_map_iff. exists y. tauto.
Qed.

Lemma wf_delete task_id db : wf db -> wf (snd (delete_task task_id db)).
Proof.
  intros (Hrows & Hids & Hseq). rewrite delete_task_eq. unfold wf.
  cbn [snd tasks seq]. repeat split; [| |assumption].
  - rewrite Forall_forall in *. intros r Hr. apply filter_In in Hr.
    now apply Hrows.
  - now apply NoDup_map_filter.
Qed.

Lemma reachable_wf db : reachable db -> wf db.
Proof.
  induction 1;
    [apply wf_empty | now apply wf_add | now apply wf_update | now apply wf_delete].
Qed.

(** In a well-formed store [find] by id returns the row itself. *)
Lemma find_by_id db r :
  NoDup (map Task.id (tasks db)) -> In r (tasks db) ->
  find (fun x => Task.id x =? Task.id r)%Z (tasks db) = Some r.
Proof.
  induction (tasks db) as [|x l IH]; simpl; [intros _ []|].
  intros Hnd Hin. inversion Hnd as [|? ? Hx Hl]; subst.
  destruct (Z.eqb_spec (Task.id x) (Task.id r)) as [E|E].
  - destruct Hin as [->|Hin]; [reflexivity|].
    exfalso. apply Hx. rewrite E. now apply in_map.
  - destruct Hin as [->|Hin]; [congruence | now apply IH].
Qed.

Lemma find_none_iff task_id (l : list Task.t) :
  find (fun x => Task.id x =? task_id)%Z l = None <->
  (forall r, In r l -> Task.id r <> task_id).
Proof.
  split.
  - intros F r Hr E. apply (find_none _ _ F) in Hr. cbn in Hr. lia.
  - intros H. destruct (find _ l) as [r|] eqn:F; [|reflexivity].
    apply find_some in F. destruct F as [Hr E]. apply H in Hr. lia.
Qed.

End Invariant.

(** ** What a successful write leaves in the store *)

Section Writes.

Lemma find_app_last task_id (l : list Task.t) r :
  (forall x, In x l -> Task.id x <> task_id) -> Task.id r = task_id ->
  find (fun x => Task.id x =? task_id)%Z (l ++ [r]) = Some r.
Proof.
  intros Hl Hr. induction l as [|x l IH]; simpl.
  - now rewrite Hr, Z.eqb_refl.
  - destruct (Z.eqb_spec (Task.id x) task_id) as [E|_].
    + exfalso. apply (Hl x); [now left | assumption].
    + apply IH. intros y Hy. apply Hl. now right.
Qed.

Lemma find_map_same_id task_id (f : Task.t -> Task.t) (l : list Task.t) :
  (forall x, Task.id (f x) = Task.id x) ->
  find (fun x => Task.id x =? task_id)%Z (map f l) =
  option_map f (find (fun x => Task.id x =? task_id)%Z l).
Proof.
  intros Hf. induction l as [|x l IH]; simpl; [reflexivity|].
  rewrite Hf. destruct (Task.id x =? task_id)%Z; [reflexivity | exact IH].
Qed.

(** [add_task] on validated input: the new row is appended under the next
    id and is the one [get_task_by_id] finds. *)
Lemma add_task_stored db now title description status :
  wf db ->
  ~ invalid title description status ->
  let r := Task.mk (seq db + 1) (Py.strip title) (Some (Py.strip description))
                   status now None in
  let db' := {| tasks := tasks db ++ [r]; seq := (seq db + 1)%Z |} in
  add_task now title description status db = (Return (seq db + 1)%Z, db') /\
  get_task_by_id (seq db + 1) db' = (Return (Some r), db').
Proof.
  intros (Hrows & _ & _) Hv r db'. apply validate_returns in Hv.
  split; [now apply add_task_returns|].
  rewrite get_task_by_id_eq. cbn [tasks db']. rewrite find_app_last; trivial.
  intros x Hx. rewrite Forall_forall in Hrows.
  destruct (Hrows x Hx) as (Hid & _). lia.
Qed.

(** [update_task] on a stored row whose merged values validate. *)
Lemma update_task_stored db now r title description status d :
  wf db -> In r (tasks db) ->
  match description with Some d => Some d | None => Task.description r end
  = Some d ->
  _validate_task_data
    (match title with Some t => t | None => Task.title r end)
    (match status with Some s => s | None => Task.status r end)
    (Some d) = Return tt ->
  exists db',
    update_task now (Task.id r) title description status db = (Return true, db') /\
    get_task_by_id (Task.id r) db' =
    (Return (Some (updated now
                     (match title with Some t => t | None => Task.title r end)
                     d
                     (match status with Some s => s | None => Task.status r end)
                     r)), db') /\
    (forall x, In x (tasks db) -> Task.id x <> Task.id r -> In x (tasks db')).
Proof.
  intros (_ & Hids & _) Hin D R.
  pose proof (find_by_id db r Hids Hin) as F.
  eexists. split; [now apply (update_task_returns _ _ _ _ _ _ r d)|].
  split.
  - rewrite get_task_by_id_eq. cbn [tasks].
    rewrite find_map_same_id.
    + now rewrite F; cbn [option_map]; rewrite Z.eqb_refl.
    + intros x. now destruct (Task.id x =? Task.id r)%Z.
  - intros x Hx Hne. cbn [tasks]. apply in_map_iff. exists x.
    split; [|assumption].
    destruct (Z.eqb_spec (Task.id x) (Task.id r)); [contradiction | reflexivity].
Qed.

Lemma filter_none_matching task_id (l : list Task.t) :
  (forall r, In r l -> Task.id r <> task_id) ->
  filter (fun r => negb (Task.id r =? task_id)%Z) l = l.
Proof.
  intros H. induction l as [|x l IH]; simpl; [reflexivity|].
  destruct (Z.eqb_spec (Task.id x) task_id) as [E|_]; simpl.
  - exfalso. apply (H x); [now left | assumption].
  - f_equal. apply IH. intros r Hr. apply H. now right.
Qed.

Lemma delete_task_missing task_id db :
  (forall r, In r (tasks db) -> Task.id r <> task_id) ->
  delete_task task_id db = (Return false, db).
Proof.
  intros H. rewrite delete_task_eq. cbv zeta.
  rewrite (filter_none_matching _ _ H), Nat.sub_diag. now destruct db.
Qed.

End Writes.

(** ** Facts about [LIKE] *)

Section LikeFacts.

Lemma like_percent p s :
  Sql.patternCompare (String "%" p) s =
  Sql.patternCompare p s ||
  match s with
  | EmptyString => false
  | String _ s' => Sql.patternCompare (String "%" p) s'
  end.
Proof. destruct s; reflexivity. Qed.

Lemma like_percent_iff p s :
  Sql.patternCompare (String "%" p) s = true <->
  exists a b, s = (a ++ b)%string /\ Sql.patternCompare p b = true.
Proof.
  split.
  - induction s as [|d s IH]; rewrite like_percent, orb_true_iff.
    + intros [H|H]; [|discriminate]. now exists "", "".
    + intros [H|H]; [now exists "", (String d s)|].
      destruct (IH H) as (a & b & -> & Hb). now exists (String d a), b.
  - intros (a & b & -> & Hb). induction a as [|d a IH]; cbn [String.append].
    + rewrite like_percent, Hb. reflexivity.
    + rewrite like_percent, IH. apply orb_true_r.
Qed.

Lemma like_any s : Sql.patternCompare "%" s = true.
Proof.
  apply like_percent_iff. exists s, "". split; [|reflexivity].
  induction s as [|c s IH]; cbn [String.append]; [reflexivity | now f_equal].
Qed.

Lemma fold_eqb_refl c : Ascii.eqb (Sql.fold c) (Sql.fold c) = true.
Proof. apply Ascii.eqb_refl. Qed.

(** A term matches itself, wildcards included. *)
Lemma like_literal t q b :
  Sql.patternCompare q b = true -> Sql.patternCompare (t ++ q) (t ++ b) = true.
Proof.
  intros Hq. induction t as [|c t IH]; cbn [String.append]; [exact Hq|].
  destruct (Ascii.eqb_spec c "%") as [->|Hc].
  - apply like_percent_iff. now exists "%", (t ++ b)%string.
  - cbn [Sql.patternCompare]. apply Ascii.eqb_neq in Hc. rewrite Hc.
    now rewrite fold_eqb_refl, orb_true_r, IH.
Qed.

Lemma lower_empty m : lower m = "" -> m = "".
Proof. now destruct m. Qed.

(** Without wildcards a pattern prefix matches a prefix equal up to case. *)
Lemma like_plain t q s :
  has_wildcard t = false ->
  (Sql.patternCompare (t ++ q) s = true <->
   exists m b, s = (m ++ b)%string /\ lower m = lower t /\ Sql.patternCompare q b = true).
Proof.
  revert s. induction t as [|c t IH]; intros s Hw; cbn [String.append].
  - split.
    + intros H. now exists "", s.
    + intros (m & b & -> & Hm & Hb). apply lower_empty in Hm. now subst.
  - cbn [has_wildcard] in Hw. apply orb_false_iff in Hw. destruct Hw as [Hw Ht].
    apply orb_false_iff in Hw. destruct Hw as [Hp Hu].
    cbn [Sql.patternCompare]. rewrite Hp. destruct s as [|d s].
    + split; [discriminate|]. intros (m & b & E & Hm & _).
      destruct m; [discriminate Hm | discriminate E].
    + rewrite Hu, orb_false_l, andb_true_iff, (IH s Ht). split.
      * intros (Hcd & m & b & -> & Hm & Hb). exists (String d m), b.
        apply Ascii.eqb_eq in Hcd. cbn [lower String.append].
        now rewrite Hm, Hcd.
      * intros (m & b & E & Hm & Hb). destruct m as [|e m]; [discriminate Hm|].
        cbn [lower String.append] in *. injection E as <- ->.
        injection Hm as Hcd Hm. split; [rewrite Hcd; apply Ascii.eqb_refl|].
        now exists m, b.
Qed.

Lemma prefix_iff t s :
  String.prefix t s = true <-> exists b, s = (t ++ b)%string.
Proof.
  revert s. induction t as [|c t IH]; intros s.
  - destruct s; simpl; split; eauto.
  - destruct s as [|d s]; simpl.
    + split; [discriminate | intros [b E]; discriminate E].
    + destruct (Ascii.ascii_dec c d) as [->|Hcd].
      * rewrite IH. split; intros [b E]; exists b; [now rewrite E|].
        now injection E.
      * split; [discriminate|]. intros [b E]. injection E as E1 _. congruence.
Qed.

Lemma contains_iff t s :
  Py.contains t s = true <-> exists a b, s = (a ++ t ++ b)%string.
Proof.
  induction s as [|d s IH]; cbn [Py.contains]; rewrite orb_true_iff, prefix_iff.
  - split.
    + intros [[b E]|H]; [now exists "", b | discriminate].
    + intros (a & b & E). left. destruct a; [now exists b | discriminate E].
  - rewrite IH. split.
    + intros [[b E]|(a & b & E)]; [now exists "", b|].
      exists (String d a), b. cbn [String.append]. now rewrite E.
    + intros (a & b & E). destruct a as [|e a]; [left; now exists b|].
      right. cbn [String.append] in E. injection E as _ E. now exists a, b.
Qed.

Lemma lower_app a b : lower (a ++ b) = (lower a ++ lower b)%string.
Proof. induction a as [|c a IH]; cbn [lower String.append]; congruence. Qed.

Lemma lower_split s x y :
  lower s = (x ++ y)%string ->
  exists s1 s2, s = (s1 ++ s2)%string /\ lower s1 = x /\ lower s2 = y.
Proof.
  revert s. induction x as [|c x IH]; intros s E; cbn [String.append] in E.
  - now exists "", s.
  - destruct s as [|d s]; [discriminate E|]. cbn [lower] in E.
    injection E as Hc E. destruct (IH s E) as (s1 & s2 & -> & H1 & H2).
    exists (String d s1), s2. cbn [lower String.append]. now rewrite Hc, H1.
Qed.

(** [LIKE '%term%'] for a term without wildcards is containment up to ASCII
    case. *)
Lemma like_plain_contains term s :
  has_wildcard term = false ->
  Sql.patternCompare ("%" ++ term ++ "%") s = Py.contains (lower term) (lower s).
Proof.
  intros Hw. apply eq_true_iff_eq.
  change ("%" ++ term ++ "%")%string with (String "%" (term ++ "%")).
  rewrite like_percent_iff, contains_iff. split.
  - intros (a & b & -> & Hb). apply (like_plain _ _ _ Hw) in Hb.
    destruct Hb as (m & b' & -> & Hm & _). exists (lower a), (lower b').
    now rewrite !lower_app, Hm.
  - intros (x & y & E). apply lower_split in E.
    destruct E as (a & s2 & -> & _ & E). apply lower_split in E.
    destruct E as (m & b & -> & Hm & _). exists a, (m ++ b)%string.
    split; [reflexivity|]. apply (like_plain _ _ _ Hw).
    exists m, b. repeat split; [assumption | apply like_any].
Qed.

Lemma like_contains term s :
  Py.contains term s = true -> Sql.patternCompare ("%" ++ term ++ "%") s = true.
Proof.
  rewrite contains_iff. intros (a & b & ->).
  change ("%" ++ term ++ "%")%string with (String "%" (term ++ "%")).
  apply like_percent_iff. exists a, (term ++ b)%string.
  split; [reflexivity|]. apply like_literal, like_any.
Qed.

Lemma has_nul_app a b : has_nul (a ++ b) = has_nul a || has_nul b.
Proof.
  induction a as [|c a IH]; cbn [has_nul String.append]; [reflexivity|].
  now rewrite IH, orb_assoc.
Qed.

Lemma until_nul_plain s : has_nul s = false -> Sql.until_nul s = s.
Proof.
  induction s as [|c s IH]; cbn [has_nul Sql.until_nul]; [reflexivity|].
  intros H. apply orb_false_iff in H. destruct H as [Hc Hs].
  now rewrite Hc, (IH Hs).
Qed.

Lemma utf8_bytes_app a b :
  Sql.utf8_bytes (a ++ b) = (Sql.utf8_bytes a + Sql.utf8_bytes b)%N.
Proof.
  induction a as [|c a IH]; cbn [Sql.utf8_bytes String.append]; [reflexivity|].
  rewrite IH. lia.
Qed.

(** A WHERE clause that fails on no row selects by [filter]. *)
Lemma scan_total (w : Task.t -> outcome bool) (f : Task.t -> bool) l :
  (forall r, In r l -> w r = Return (f r)) ->
  Sql.scan w l = Return (filter f l).
Proof.
  induction l as [|x l IH]; intros H; cbn [Sql.scan filter]; [reflexivity|].
  rewrite (H x (or_introl eq_refl)), IH by (intros r Hr; apply H; now right).
  reflexivity.
Qed.

(** The LIKE of [search_tasks] for a term without wildcard or NUL and within
    the pattern limit. *)
Lemma like_plain_term term title :
  has_wildcard term = false -> has_nul term = false ->
  (Sql.utf8_bytes term <= 49998)%N ->
  Sql.like ("%" ++ term ++ "%") title
  = Return (Py.contains (lower term) (lower (Sql.until_nul title))).
Proof.
  intros Hw Hn Hl. unfold Sql.like.
  assert (Hb : (50000 <? Sql.utf8_bytes ("%" ++ term ++ "%"))%N = false).
  { apply N.ltb_ge. rewrite !utf8_bytes_app. cbn [Sql.utf8_bytes].
    change (N_of_ascii "%" <? 128)%N with true. cbv iota. lia. }
  rewrite Hb, until_nul_plain.
  - now rewrite (like_plain_contains _ _ Hw).
  - rewrite !has_nul_app, Hn. reflexivity.
Qed.

Lemma search_tasks_plain term db :
  has_wildcard term = false -> has_nul term = false ->
  (Sql.utf8_bytes term <= 49998)%N ->
  search_tasks term db =
  (Return (Sql.order_by_created_at_desc
             (filter (fun r => Py.contains (lower term)
                                 (lower (Sql.until_nul (Task.title r))))
                     (tasks db))), db).
Proof.
  intros Hw Hn Hl. unfold search_tasks, _get_connection, Sql.select_where.
  rewrite (scan_total _ (fun r => Py.contains (lower term)
                                    (lower (Sql.until_nul (Task.title r))))).
  - reflexivity.
  - intros r _. now apply like_plain_term.
Qed.

End LikeFacts.

(** ** The claims *)

(** C1. On a reachable store and for input that passes validation (title not
    blank after trimming and at most 200 characters, description at most 1000
    characters, status in the enumeration), [add_task] returns an id under
    which [get_task_by_id] finds a task with the trimmed title, the trimmed
    description, the given status and no [updated_at].  On the empty store,
    [add_task("Review PR", "", "pending")] returns 1 and [get_task_by_id(1)]
    returns exactly those values. *)
Theorem add_then_get_by_id db now title description status
    (Hdb : reachable db)
    (Htitle : Py.strip title <> "")
    (Htitle_len : String.length title <= 200)
    (Hdescription_len : String.length description <= 1000)
    (Hstatus : In status ["pending"; "in_progress"; "completed"; "high"; "urgent"]) :
  (exists task_id db' r,
     add_task now title description status db = (Return task_id, db') /\
     get_task_by_id task_id db' = (Return (Some r), db') /\
     Task.id r = task_id /\
     Task.title r = Py.strip title /\
     Task.description r = Some (Py.strip description) /\
     Task.status r = status /\
     Task.updated_at r = None) /\
  (forall now0,
     exists db1,
       add_task now0 "Review PR" "" "pending" empty_db = (Return 1%Z, db1) /\
       get_task_by_id 1 db1 =
       (Return (Some (Task.mk 1 "Review PR" (Some "") "pending" now0 None)),
        db1)).
Proof.
  split.
  - assert (Hv : ~ invalid title description status).
    { unfold invalid. intros [H|[H|[H|H]]]; [contradiction | lia | lia |].
      now apply H. }
    destruct (add_task_stored db now title description status
                (reachable_wf _ Hdb) Hv) as [Ha Hg].
    do 3 eexists. split; [exact Ha|]. split; [exact Hg|].
    now repeat split.
  - intros now0. eexists. split; reflexivity.
Qed.

Lemma add_then_get_by_id_witness :
  exists task_id db' r,
    add_task "2024-05-01T10:00:00" "  Review PR " " soon " "high" empty_db
    = (Return task_id, db') /\
    get_task_by_id task_id db' = (Return (Some r), db') /\
    Task.id r = task_id /\
    Task.title r = Py.strip "  Review PR " /\
    Task.description r = Some (Py.strip " soon ") /\
    Task.status r = "high" /\
    Task.updated_at r = None.
Proof.
  refine (proj1 (add_then_get_by_id empty_db "2024-05-01T10:00:00"
                   "  Review PR " " soon " "high" reachable_init _ _ _ _)).
  - vm_compute. discriminate.
  - vm_compute. lia.
  - vm_compute. lia.
  - simpl. tauto.
Defined.

(** C2. Validation raises [ValidationError] exactly when the title is blank
    after trimming, the title has more than 200 characters, the description
    has more than 1000 characters, or the status is outside the enumeration;
    [add_task] raises it under the same condition and [update_task] under
    that condition on the merged values.  A title of exactly 200 characters
    passes (the other conditions being met) and a longer one always fails. *)
Theorem validation_error_iff title description status :
  ((exists msg, _validate_task_data title status (Some description)
                = Raise (ValidationError msg)) <->
   (Py.strip title = "" \/ 200 < String.length title \/
    1000 < String.length description \/
    ~ In status ["pending"; "in_progress"; "completed"; "high"; "urgent"])) /\
  (forall now db,
     (exists msg, fst (add_task now title description status db)
                  = Raise (ValidationError msg)) <->
     invalid title description status) /\
  (forall now db task_id r new_title new_description new_status merged,
     fst (get_task_by_id task_id db) = Return (Some r) ->
     match new_description with
     | Some d => Some d
     | None => Task.description r
     end = Some merged ->
     ((exists msg,
         fst (update_task now task_id new_title new_description new_status db)
         = Raise (ValidationError msg)) <->
      invalid (match new_title with Some t => t | None => Task.title r end)
              merged
              (match new_status with Some s => s | None => Task.status r end))) /\
  (String.length title = 200 -> Py.strip title <> "" ->
   String.length description <= 1000 -> In status valid_statuses ->
   _validate_task_data title status (Some description) = Return tt) /\
  (200 < String.length title ->
   exists msg, _validate_task_data title status (Some description)
               = Raise (ValidationError msg)).
Proof.
  split; [exact (validate_raises title status description)|].
  split; [|split; [|split]].
  - intros now db. rewrite <- validate_raises.
    destruct (validate_cases title status (Some description)) as [R|[msg R]].
    + rewrite (add_task_returns _ _ _ _ _ R), R. cbn [fst].
      split; intros [m Hm]; discriminate.
    + rewrite (add_task_raises _ _ _ _ _ _ R). cbn [fst]. split; eauto.
  - intros now db task_id r new_title new_description new_status merged F D.
    rewrite get_task_by_id_eq in F. cbn [fst] in F.
    assert (F' : find (fun x => Task.id x =? task_id)%Z (tasks db) = Some r)
      by congruence.
    rewrite <- validate_raises.
    destruct (validate_cases
                (match new_title with Some t => t | None => Task.title r end)
                (match new_status with Some s => s | None => Task.status r end)
                (Some merged)) as [R|[msg R]].
    + rewrite (update_task_returns now task_id new_title new_description
                 new_status db r merged F' D R), R.
      cbn [fst]. split; intros [m Hm]; discriminate.
    + rewrite <- D in R.
      rewrite (update_task_raises now task_id new_title new_description
                 new_status db r _ F' R).
      cbn [fst]. rewrite D in R. split; eauto.
  - intros Hlen Hs Hd Hst. apply validate_returns.
    intros [H|[H|[H|H]]]; [contradiction | lia | lia | contradiction].
  - intros Hlen. apply validate_raises. right; now left.
Qed.

Lemma validation_error_iff_witness :
  _validate_task_data (times "x" 200) "pending" (Some "") = Return tt /\
  (exists msg, _validate_task_data (times "x" 201) "pending" (Some "")
               = Raise (ValidationError msg)) /\
  (exists msg,
     fst (update_task "2024-05-01T10:00:00" 1 (Some "   ") (Some "") None
            (snd (add_task "2024-05-01T09:00:00" "a" "" "pending" empty_db)))
     = Raise (ValidationError msg)).
Proof.
  split; [|split].
  - apply (proj1 (proj2 (proj2 (proj2
             (validation_error_iff (times "x" 200) "" "pending"))))).
    + reflexivity.
    + vm_compute. discriminate.
    + vm_compute. lia.
    + vm_compute. tauto.
  - apply (proj2 (proj2 (proj2 (proj2
             (validation_error_iff (times "x" 201) "" "pending"))))).
    vm_compute. lia.
  - apply (proj1 (proj2 (proj2 (validation_error_iff "a" "" "pending")))
             "2024-05-01T10:00:00"
             (snd (add_task "2024-05-01T09:00:00" "a" "" "pending" empty_db))
             1%Z
             (Task.mk 1 "a" (Some "") "pending" "2024-05-01T09:00:00" None)
             (Some "   ") (Some "") None "").
    + reflexivity.
    + reflexivity.
    + left. reflexivity.
Defined.

(** C3. Text with quote and statement-terminator characters is data: on a
    reachable store [add_task] accepts the title
    [O'Brien; DROP TABLE tasks;], [get_task_by_id] returns it literally, and
    [get_all_tasks] afterwards returns every task it returned before,
    unchanged, together with the new one.  The same holds for every title
    that passes validation, whatever characters it has. *)
Theorem quoted_text_is_stored_literally db now description status
    (Hdb : reachable db)
    (Hdescription_len : String.length description <= 1000)
    (Hstatus : In status valid_statuses) :
  let stored_as title :=
    exists task_id db' r,
      add_task now title description status db = (Return task_id, db') /\
      get_task_by_id task_id db' = (Return (Some r), db') /\
      Task.title r = Py.strip title /\
      Task.description r = Some (Py.strip description) /\
      exists before after,
        get_all_tasks db = (Return before, db) /\
        get_all_tasks db' = (Return after, db') /\
        Permutation after (r :: before) in
  stored_as "O'Brien; DROP TABLE tasks;" /\
  Py.strip "O'Brien; DROP TABLE tasks;" = "O'Brien; DROP TABLE tasks;" /\
  (forall title,
     Py.strip title <> "" -> String.length title <= 200 -> stored_as title).
Proof.
  intros stored_as.
  assert (G : forall title,
             Py.strip title <> "" -> String.length title <= 200 ->
             stored_as title).
  { intros title Ht Hl.
    assert (Hv : ~ invalid title description status).
    { intros [H|[H|[H|H]]]; [contradiction | lia | lia | contradiction]. }
    destruct (add_task_stored db now title description status
                (reachable_wf _ Hdb) Hv) as [Ha Hg].
    unfold stored_as. do 3 eexists. split; [exact Ha|]. split; [exact Hg|].
    split; [reflexivity|]. split; [reflexivity|].
    do 2 eexists. split; [reflexivity|]. split; [reflexivity|].
    cbn [tasks]. rewrite !filter_true.
    rewrite order_by_perm, order_by_perm.
    rewrite Permutation_app_comm. reflexivity. }
  split; [|split; [reflexivity | exact G]].
  apply G; [vm_compute; discriminate | vm_compute; lia].
Qed.

Lemma quoted_text_is_stored_literally_witness :
  let db := snd (add_task "2024-05-01T09:00:00" "first" "" "pending" empty_db) in
  exists task_id db' r,
    add_task "2024-05-01T10:00:00" "O'Brien; DROP TABLE tasks;" "" "pending" db
    = (Return task_id, db') /\
    get_task_by_id task_id db' = (Return (Some r), db') /\
    Task.title r = "O'Brien; DROP TABLE tasks;" /\
    Task.description r = Some "" /\
    exists before after,
      get_all_tasks db = (Return before, db) /\
      get_all_tasks db' = (Return after, db') /\
      Permutation after (r :: before).
Proof.
  refine (proj1 (quoted_text_is_stored_literally
                   (snd (add_task "2024-05-01T09:00:00" "first" "" "pending"
                           empty_db))
                   "2024-05-01T10:00:00" "" "pending" _ _ _)).
  - apply reachable_add, reachable_init.
  - simpl. lia.
  - simpl. tauto.
Defined.

(** C4. In every store reachable from the empty one through [add_task],
    [update_task] and [delete_task], the status of every stored task belongs
    to pending, in_progress, completed, high, urgent; hence neither
    [filter_by_status] nor [get_priority_tasks] returns a task with another
    status. *)
Theorem stored_status_is_enumerated db (Hdb : reachable db) :
  let enumerated s :=
    In s ["pending"; "in_progress"; "completed"; "high"; "urgent"] in
  (forall r, In r (tasks db) -> enumerated (Task.status r)) /\
  (forall status rs,
     fst (filter_by_status status db) = Return rs ->
     forall r, In r rs -> enumerated (Task.status r)) /\
  (forall rs,
     fst (get_priority_tasks db) = Return rs ->
     forall r, In r rs -> enumerated (Task.status r)).
Proof.
  intros enumerated.
  assert (Hall : forall r, In r (tasks db) -> enumerated (Task.status r)).
  { intros r Hr. destruct (reachable_wf _ Hdb) as (Hrows & _).
    rewrite Forall_forall in Hrows.
    destruct (Hrows r Hr) as (_ & _ & d & _ & _ & Hv).
    apply validate_returns in Hv. unfold invalid in Hv.
    destruct (in_dec string_dec (Task.status r) valid_statuses) as [H|H];
      [exact H | exfalso; apply Hv; now right; right; right]. }
  split; [exact Hall|]. split.
  - intros status rs. unfold filter_by_status.
    destruct (negb (existsb (String.eqb status) valid_statuses));
      [discriminate|].
    cbn. intros [= <-] r Hr. apply order_by_in, filter_In in Hr.
    now apply Hall.
  - intros rs. cbn. intros [= <-] r Hr. apply order_by_in, filter_In in Hr.
    now apply Hall.
Qed.

Lemma stored_status_is_enumerated_witness :
  let db :=
    snd (update_task "2024-05-01T11:00:00" 1 None None (Some "completed")
           (snd (add_task "2024-05-01T10:00:00" "a" "" "urgent" empty_db))) in
  let r := Task.mk 1 "a" (Some "") "completed" "2024-05-01T10:00:00"
                   (Some "2024-05-01T11:00:00") in
  In r (tasks db) /\
  In (Task.status r) ["pending"; "in_progress"; "completed"; "high"; "urgent"].
Proof.
  intros db r.
  assert (Hr : In r (tasks db)) by (simpl; now left).
  split; [exact Hr|].
  refine (proj1 (stored_status_is_enumerated db _) r Hr).
  apply reachable_update, reachable_add, reachable_init.
Defined.

(** C5. For an id (an integer of the signed 64-bit range, which is what the
    [sqlite3] module binds) under which no task is stored, [get_task_by_id]
    returns [None], [update_task] returns [False] and [delete_task] returns
    [False]; none of them raises and the store is left as it was.  A second
    [delete_task] on such an id returns [False]. *)
Theorem missing_id_is_a_normal_result db task_id
    (Hid : int64 task_id)
    (Hmissing : forall r, In r (tasks db) -> Task.id r <> task_id) :
  get_task_by_id task_id db = (Return None, db) /\
  (forall now title description status,
     update_task now task_id title description status db = (Return false, db)) /\
  delete_task task_id db = (Return false, db) /\
  (forall db0,
     let db1 := snd (delete_task task_id db0) in
     delete_task task_id db1 = (Return false, db1)).
Proof.
  pose proof (proj2 (find_none_iff task_id (tasks db)) Hmissing) as F.
  split; [now rewrite get_task_by_id_eq, F|].
  split; [intros; now apply update_task_missing|].
  split; [now apply delete_task_missing|].
  intros db0 db1. apply delete_task_missing.
  unfold db1. rewrite delete_task_eq. cbn [snd tasks].
  intros r Hr. apply filter_In in Hr. destruct Hr as [_ Hr].
  destruct (Z.eqb_spec (Task.id r) task_id); [discriminate | assumption].
Qed.

Lemma missing_id_is_a_normal_result_witness :
  let db := snd (add_task "2024-05-01T10:00:00" "a" "" "pending" empty_db) in
  get_task_by_id 9999 db = (Return None, db) /\
  update_task "2024-05-01T11:00:00" 9999 (Some "Updated") None None db
  = (Return false, db) /\
  delete_task 9999 db = (Return false, db) /\
  delete_task 1 (snd (delete_task 1 db)) = (Return false, snd (delete_task 1 db)).
Proof.
  assert (H : forall r,
             In r (tasks (snd (add_task "2024-05-01T10:00:00" "a" "" "pending"
                                 empty_db))) ->
             Task.id r <> 9999%Z).
  { simpl. intros r [<-|[]]. simpl. lia. }
  assert (Hrange : forall z, (- 2 ^ 63 <=? z)%Z && (z <? 2 ^ 63)%Z = true ->
                              int64 z).
  { intros z Hz. apply andb_true_iff in Hz. unfold int64. lia. }
  destruct (missing_id_is_a_normal_result _ 9999%Z (Hrange 9999%Z eq_refl) H)
    as (Hg & Hu & Hd & _).
  assert (H1 : forall r, In r (tasks empty_db) -> Task.id r <> 1%Z)
    by (intros r []).
  destruct (missing_id_is_a_normal_result _ 1%Z (Hrange 1%Z eq_refl) H1)
    as (_ & _ & _ & Hdd).
  intros db. split; [exact Hg|]. split; [apply Hu|]. split; [exact Hd|].
  exact (Hdd db).
Defined.

(** C6. When [add_task] or [update_task] raises [ValidationError] the store
    is what it was before the call. *)
Theorem validation_failure_leaves_store :
  (forall now title description status db msg,
     fst (add_task now title description status db)
     = Raise (ValidationError msg) ->
     snd (add_task now title description status db) = db) /\
  (forall now task_id title description status db msg,
     fst (update_task now task_id title description status db)
     = Raise (ValidationError msg) ->
     snd (update_task now task_id title description status db) = db).
Proof.
  split.
  - intros now title description status db msg.
    destruct (validate_cases title status (Some description)) as [R|[m R]].
    + rewrite (add_task_returns _ _ _ _ _ R). discriminate.
    + now rewrite (add_task_raises _ _ _ _ _ _ R).
  - intros now task_id title description status db msg.
    destruct (update_task_cases now task_id title description status db)
      as [E|(r & d & _ & _ & _ & E)]; [now rewrite E|].
    rewrite E. discriminate.
Qed.

Lemma validation_failure_leaves_store_witness :
  let db := snd (add_task "2024-05-01T10:00:00" "a" "" "pending" empty_db) in
  snd (add_task "2024-05-01T11:00:00" "   " "" "pending" db) = db /\
  snd (update_task "2024-05-01T11:00:00" 1 None None (Some "invalid_status") db)
  = db.
Proof.
  split.
  - apply (proj1 validation_failure_leaves_store) with (msg := "Title cannot be empty").
    reflexivity.
  - eapply (proj2 validation_failure_leaves_store). reflexivity.
Defined.

(** C7. For a task stored in a reachable store, [update_task] with no
    title, description or status returns [True]; afterwards the task has the
    same id, title, description, status and [created_at], and its
    [updated_at] is the time of the call. *)
Theorem update_without_fields db now r
    (Hdb : reachable db) (Hstored : In r (tasks db)) :
  exists db',
    update_task now (Task.id r) None None None db = (Return true, db') /\
    get_task_by_id (Task.id r) db' =
    (Return (Some (Task.mk (Task.id r) (Task.title r) (Task.description r)
                           (Task.status r) (Task.created_at r) (Some now))),
     db').
Proof.
  pose proof (reachable_wf _ Hdb) as Hwf.
  destruct Hwf as (Hrows & Hrest). rewrite Forall_forall in Hrows.
  destruct (Hrows r Hstored) as (_ & Ht & d & Hd & Hds & Hv).
  destruct (update_task_stored db now r None None None d)
    as (db' & Hu & Hg & _); try assumption.
  { split; [now apply Forall_forall | exact Hrest]. }
  exists db'. split; [exact Hu|].
  rewrite Hg. unfold updated. now rewrite Ht, Hds, Hd.
Qed.

Lemma update_without_fields_witness :
  let db := snd (add_task "2024-05-01T10:00:00" " a " "b" "high" empty_db) in
  exists db',
    update_task "2024-05-02T08:30:00" 1 None None None db = (Return true, db') /\
    get_task_by_id 1 db' =
    (Return (Some (Task.mk 1 "a" (Some "b") "high" "2024-05-01T10:00:00"
                           (Some "2024-05-02T08:30:00"))), db').
Proof.
  refine (update_without_fields
            (snd (add_task "2024-05-01T10:00:00" " a " "b" "high" empty_db))
            "2024-05-02T08:30:00"
            (Task.mk 1 "a" (Some "b") "high" "2024-05-01T10:00:00" None) _ _).
  - apply reachable_add, reachable_init.
  - simpl. now left.
Defined.

(** C8. [get_priority_tasks] returns exactly the stored tasks whose status
    is high or urgent, in descending order of [created_at]; on the empty
    store, after [add_task("X")] and [add_task("Y", status="urgent")] it
    returns exactly the task "Y". *)
Theorem priority_tasks_are_high_or_urgent :
  (forall db,
     exists rs,
       get_priority_tasks db = (Return rs, db) /\
       Permutation rs
         (filter (fun r => (Task.status r =? "high") || (Task.status r =? "urgent"))
                 (tasks db)) /\
       (forall r, In r rs <->
                  In r (tasks db) /\
                  (Task.status r = "high" \/ Task.status r = "urgent")) /\
       StronglySorted newer_first rs) /\
  (forall t1 t2,
     fst ((add_task t1 "X" "" "pending" ;;;
           add_task t2 "Y" "" "urgent" ;;;
           get_priority_tasks) empty_db)
     = Return [Task.mk 2 "Y" (Some "") "urgent" t2 None]).
Proof.
  split.
  - intros db. eexists. split; [reflexivity|].
    split; [apply order_by_perm|]. split; [|apply order_by_sorted].
    intros r. rewrite order_by_in, filter_In, orb_true_iff.
    cbn [value]. now rewrite !String.eqb_eq.
  - intros t1 t2. reflexivity.
Qed.

(** C9, as stated, fails: LIKE compares ASCII letters without regard to
    case.  With the one title [Python Tutorial] stored, [search_tasks("py")]
    returns that task, whose title does not contain [py]. *)
Lemma search_tasks_not_substring_match :
  let db :=
    snd (add_task "2024-05-01T10:00:00" "Python Tutorial" "Learn Python"
           "pending" empty_db) in
  let r := Task.mk 1 "Python Tutorial" (Some "Learn Python") "pending"
                   "2024-05-01T10:00:00" None in
  search_tasks "py" db = (Return [r], db) /\
  Py.contains "py" (Task.title r) = false.
Proof. repeat split. Qed.

(** C9, amended.  For a search term without [%], [_] and NUL and of at most
    49998 bytes in UTF-8, [search_tasks(term)] returns exactly the stored
    tasks whose title, read up to its first NUL character if it has one,
    contains the term at some position when ASCII letters are compared
    without regard to case; they come in descending order of [created_at],
    and the result is empty when no stored title contains the term in that
    sense. *)
Theorem search_tasks_matches_up_to_case term db
    (Hplain : has_wildcard term = false)
    (Hnul : has_nul term = false)
    (Hlength : (Sql.utf8_bytes term <= 49998)%N) :
  let matches r :=
    Py.contains (lower term) (lower (Sql.until_nul (Task.title r))) in
  exists rs,
    search_tasks term db = (Return rs, db) /\
    Permutation rs (filter matches (tasks db)) /\
    (forall r, In r rs <-> In r (tasks db) /\ matches r = true) /\
    (forall r, has_nul (Task.title r) = false ->
               (In r rs <->
                In r (tasks db) /\
                Py.contains (lower term) (lower (Task.title r)) = true)) /\
    StronglySorted newer_first rs /\
    ((forall r, In r (tasks db) -> matches r = false) -> rs = []).
Proof.
  intros matches. rewrite (search_tasks_plain term db Hplain Hnul Hlength).
  fold matches. eexists. split; [reflexivity|].
  split; [apply order_by_perm|].
  assert (Hin : forall r,
             In r (Sql.order_by_created_at_desc (filter matches (tasks db))) <->
             In r (tasks db) /\ matches r = true).
  { intros r. now rewrite order_by_in, filter_In. }
  split; [exact Hin|]. split; [|split; [apply order_by_sorted|]].
  - intros r Hr. rewrite Hin. unfold matches.
    now rewrite (until_nul_plain _ Hr).
  - intros Hnone.
    assert (E : filter matches (tasks db) = []).
    { revert Hnone. generalize (tasks db) as l.
      induction l as [|x l IH]; intros Hnone; [reflexivity|]. cbn [filter].
      rewrite (Hnone x (or_introl eq_refl)). apply IH.
      intros r Hr. apply Hnone. now right. }
    now rewrite E.
Qed.

Lemma search_tasks_matches_up_to_case_witness :
  let db :=
    snd (add_task "2024-05-02T10:00:00" "Java Tutorial" "" "pending"
           (snd (add_task "2024-05-01T10:00:00" "Python Tutorial" "" "pending"
                   empty_db))) in
  exists rs,
    search_tasks "py" db = (Return rs, db) /\
    (forall r, In r rs <->
               In r (tasks db) /\
               Py.contains "py" (lower (Sql.until_nul (Task.title r))) = true) /\
    search_tasks "ruby" db = (Return [], db).
Proof.
  intros db.
  assert (Hb : forall t, (Sql.utf8_bytes t <=? 49998)%N = true ->
                         (Sql.utf8_bytes t <= 49998)%N)
    by (intros t; apply N.leb_le).
  destruct (search_tasks_matches_up_to_case "py" db eq_refl eq_refl
              (Hb "py" eq_refl)) as (rs & E & _ & H & _).
  destruct (search_tasks_matches_up_to_case "ruby" db eq_refl eq_refl
              (Hb "ruby" eq_refl)) as (rs' & E' & _ & _ & _ & _ & N).
  exists rs. split; [exact E|]. split; [exact H|].
  rewrite E'. rewrite N; [reflexivity|].
  intros r [<-|[<-|[]]]; reflexivity.
Defined.

(** C10. [update_task] takes an empty string as a supplied value: for a task
    stored in a reachable store, [description=""] returns [True] and stores
    the empty description (leaving title and status), whereas
    [description=None] keeps the stored description; [title=""] is merged and
    raises [ValidationError], the stored task keeping its title. *)
Theorem update_with_empty_string db now r
    (Hdb : reachable db) (Hstored : In r (tasks db)) :
  (exists db',
     update_task now (Task.id r) None (Some "") None db = (Return true, db') /\
     get_task_by_id (Task.id r) db' =
     (Return (Some (Task.mk (Task.id r) (Task.title r) (Some "")
                            (Task.status r) (Task.created_at r) (Some now))),
      db')) /\
  (exists db' r',
     update_task now (Task.id r) None None None db = (Return true, db') /\
     get_task_by_id (Task.id r) db' = (Return (Some r'), db') /\
     Task.description r' = Task.description r) /\
  (forall description status,
     update_task now (Task.id r) (Some "") description status db =
     (Raise (ValidationError "Title cannot be empty"), db) /\
     get_task_by_id (Task.id r) db = (Return (Some r), db)).
Proof.
  pose proof (reachable_wf _ Hdb) as Hwf.
  pose proof Hwf as (Hrows & Hids & _). rewrite Forall_forall in Hrows.
  destruct (Hrows r Hstored) as (_ & Ht & d & Hd & Hds & Hv).
  pose proof (find_by_id db r Hids Hstored) as F.
  split; [|split].
  - destruct (update_task_stored db now r None (Some "") None "")
      as (db' & Hu & Hg & _); try assumption; try reflexivity.
    { apply validate_returns. apply validate_returns in Hv.
      intros [H|[H|[H|H]]]; apply Hv; [now left | right; now left | |
                                        now right; right; right].
      simpl in H. lia. }
    exists db'. split; [exact Hu|].
    rewrite Hg. unfold updated. now rewrite Ht.
  - destruct (update_task_stored db now r None None None d)
      as (db' & Hu & Hg & _); try assumption.
    do 2 eexists. split; [exact Hu|]. split; [exact Hg|].
    unfold updated. cbn [Task.description]. now rewrite Hds, Hd.
  - intros description status. split.
    + apply (update_task_raises _ _ _ _ _ _ r); [exact F | reflexivity].
    + now rewrite get_task_by_id_eq, F.
Qed.

Lemma update_with_empty_string_witness :
  let db := snd (add_task "2024-05-01T10:00:00" "a" "b" "high" empty_db) in
  (exists db',
     update_task "2024-05-02T08:30:00" 1 None (Some "") None db
     = (Return true, db') /\
     get_task_by_id 1 db' =
     (Return (Some (Task.mk 1 "a" (Some "") "high" "2024-05-01T10:00:00"
                            (Some "2024-05-02T08:30:00"))), db')) /\
  update_task "2024-05-02T08:30:00" 1 (Some "") None None db =
  (Raise (ValidationError "Title cannot be empty"), db).
Proof.
  assert (Hdb : reachable
                  (snd (add_task "2024-05-01T10:00:00" "a" "b" "high" empty_db)))
    by apply reachable_add, reachable_init.
  assert (Hin : In (Task.mk 1 "a" (Some "b") "high" "2024-05-01T10:00:00" None)
                   (tasks (snd (add_task "2024-05-01T10:00:00" "a" "b" "high"
                                  empty_db))))
    by (simpl; now left).
  destruct (update_with_empty_string _ "2024-05-02T08:30:00" _ Hdb Hin)
    as (H1 & _ & H3).
  split; [exact H1 | exact (proj1 (H3 None None))].
Defined.

(** ** Further facts about the store *)

Section StoreFacts.

Lemma rstrip_last s : last_not_space (Py.rstrip s).
Proof.
  induction s as [|c s IH]; cbn [Py.rstrip]; [exact I|].
  destruct (Py.rstrip s) as [|d r].
  - destruct (Py.isspace c) eqn:E; [exact I | exact E].
  - exact IH.
Qed.

Lemma strip_trimmed s :
  head_not_space (Py.strip s) /\ last_not_space (Py.strip s).
Proof.
  unfold Py.strip. split; [apply rstrip_head, lstrip_head | apply rstrip_last].
Qed.

Lemma same_id_same_row (l : list Task.t) a b :
  NoDup (map Task.id l) -> In a l -> In b l -> Task.id a = Task.id b -> a = b.
Proof.
  intros Hnd Ha Hb E.
  pose proof (find_by_id {| tasks := l; seq := 0 |} a Hnd Ha) as Fa.
  pose proof (find_by_id {| tasks := l; seq := 0 |} b Hnd Hb) as Fb.
  rewrite E in Fa. congruence.
Qed.

Lemma rowcount_positive task_id (l : list Task.t) :
  (0 <? List.length l -
        List.length (filter (fun r => negb (Task.id r =? task_id)%Z) l))%nat = true
  <-> exists r, In r l /\ Task.id r = task_id.
Proof.
  rewrite Nat.ltb_lt. induction l as [|x l IH]; cbn [filter List.length].
  - split; [lia | intros (r & [] & _)].
  - pose proof (filter_length_le (fun r => negb (Task.id r =? task_id)%Z) l).
    destruct (Z.eqb_spec (Task.id x) task_id) as [E|E]; cbn [negb List.length].
    + split; [intros _; exists x; split; [now left | assumption] | lia].
    + rewrite Nat.sub_succ, IH. split.
      * intros (r & Hr & Er). exists r. split; [now right | assumption].
      * intros (r & [->|Hr] & Er); [contradiction | now exists r].
Qed.

Lemma delete_one_length (l : list Task.t) r :
  NoDup (map Task.id l) -> In r l ->
  S (List.length (filter (fun x => negb (Task.id x =? Task.id r)%Z) l))
  = List.length l.
Proof.
  induction l as [|x l IH]; cbn [map filter List.length]; [intros _ []|].
  intros Hnd Hin. inversion Hnd as [|? ? Hx Hl]; subst.
  destruct (Z.eqb_spec (Task.id x) (Task.id r)) as [E|E]; cbn [negb List.length].
  - f_equal. f_equal. apply filter_none_matching.
    intros y Hy Ey. apply Hx. rewrite E, <- Ey. now apply in_map.
  - f_equal. apply IH; [assumption|].
    destruct Hin as [->|Hin]; [contradiction | assumption].
Qed.

Lemma add_task_cases now title description status db :
  add_task now title description status db
  = (Return (seq db + 1)%Z,
     {| tasks := tasks db ++
                 [Task.mk (seq db + 1) (Py.strip title)
                          (Some (Py.strip description)) status now None];
        seq := (seq db + 1)%Z |}) \/
  exists msg,
    add_task now title description status db = (Raise (ValidationError msg), db).
Proof.
  destruct (validate_cases title status (Some description)) as [R|[msg R]].
  - left. now apply add_task_returns.
  - right. exists msg. now apply add_task_raises.
Qed.

Lemma evolves_reachable db db' : reachable db -> evolves db db' -> reachable db'.
Proof. intros Hdb. induction 1; [assumption | | |]; now constructor. Qed.

Lemma evolves_seq db db' : evolves db db' -> (seq db <= seq db')%Z.
Proof.
  induction 1 as [|now title description status db' _ IH
                  |now task_id title description status db' _ IH
                  |task_id db' _ IH]; [lia | | |].
  - destruct (add_task_cases now title description status db') as [E|[msg E]];
      rewrite E; cbn [snd seq]; lia.
  - destruct (update_task_cases now task_id title description status db')
      as [E|(r & d & _ & _ & _ & E)]; rewrite E; cbn [snd seq]; lia.
  - rewrite delete_task_eq. cbn. exact IH.
Qed.

Lemma insert_desc_first r s :
  (forall y, In y s -> String.ltb (Task.created_at r) (Task.created_at y) = false) ->
  Sql.insert_desc r s = r :: s.
Proof.
  destruct s as [|x s]; [reflexivity|]. intros H. cbn [Sql.insert_desc].
  now rewrite (H x (or_introl eq_refl)).
Qed.

Lemma filter_or_perm {A} (p q : A -> bool) l :
  (forall x, p x = true -> q x = true -> False) ->
  Permutation (filter (fun x => p x || q x) l) (filter p l ++ filter q l).
Proof.
  intros Hpq. induction l as [|x l IH]; cbn [filter]; [constructor|].
  destruct (p x) eqn:Ep, (q x) eqn:Eq; cbn [orb app].
  - exfalso. eauto.
  - now constructor.
  - rewrite IH. apply Permutation_middle.
  - exact IH.
Qed.

End StoreFacts.

(** ** Further properties of the methods *)

(** X1. [get_all_tasks] never raises and leaves the store as it is; its
    result holds every stored row exactly once, in descending order of
    [created_at]. *)
Theorem get_all_tasks_lists_store db :
  exists rs,
    get_all_tasks db = (Return rs, db) /\
    Permutation rs (tasks db) /\
    List.length rs = List.length (tasks db) /\
    StronglySorted newer_first rs.
Proof.
  eexists. split; [reflexivity|]. rewrite filter_true.
  split; [apply order_by_perm|]. split; [|apply order_by_sorted].
  apply Permutation_length, order_by_perm.
Qed.

(** X2. [filter_by_status] raises [ValidationError("Invalid status: ...")]
    for a status outside the enumeration, without touching the store; for a
    status of the enumeration it returns exactly the stored rows with that
    status, in descending order of [created_at]. *)
Theorem filter_by_status_checks_then_selects status db :
  (~ In status valid_statuses ->
   filter_by_status status db
   = (Raise (ValidationError ("Invalid status: " ++ status)), db)) /\
  (In status valid_statuses ->
   exists rs,
     filter_by_status status db = (Return rs, db) /\
     Permutation rs (filter (fun r => Task.status r =? status) (tasks db)) /\
     (forall r, In r rs <-> In r (tasks db) /\ Task.status r = status) /\
     StronglySorted newer_first rs).
Proof.
  unfold filter_by_status. pose proof (in_valid_statuses status) as Hv.
  destruct (existsb (String.eqb status) valid_statuses); cbn [negb]; split.
  - intros H. exfalso. apply H. now apply Hv.
  - intros _. eexists. split; [reflexivity|].
    split; [apply order_by_perm|]. split; [|apply order_by_sorted].
    intros r. now rewrite order_by_in, filter_In, String.eqb_eq.
  - reflexivity.
  - intros H. apply Hv in H. discriminate.
Qed.

Lemma filter_by_status_checks_then_selects_witness :
  let db :=
    snd (add_task "2024-05-02T10:00:00" "b" "" "completed"
           (snd (add_task "2024-05-01T10:00:00" "a" "" "pending" empty_db))) in
  filter_by_status "done" db
  = (Raise (ValidationError "Invalid status: done"), db) /\
  exists rs,
    filter_by_status "pending" db = (Return rs, db) /\
    (forall r, In r rs <-> In r (tasks db) /\ Task.status r = "pending").
Proof.
  intros db. split.
  - apply (proj1 (filter_by_status_checks_then_selects "done" db)).
    simpl. intros [H|[H|[H|[H|[H|[]]]]]]; discriminate H.
  - destruct (proj2 (filter_by_status_checks_then_selects "pending" db))
      as (rs & E & _ & H & _); [simpl; tauto|].
    exists rs. split; [exact E | exact H].
Defined.

(** X3. For an id of the signed 64-bit range, [delete_task] returns, and
    returns [True] exactly when a row with the id is stored.  On a reachable
    store, deleting a stored task removes that row
    and nothing else: the id is no longer found, every other row stays as it
    was, one row fewer is stored, and the id counter is unchanged. *)
Theorem delete_task_removes_exactly_one db r
    (Hdb : reachable db) (Hstored : In r (tasks db)) :
  (forall task_id db0,
     int64 task_id ->
     exists b,
       fst (delete_task task_id db0) = Return b /\
       (b = true <-> exists x, In x (tasks db0) /\ Task.id x = task_id)) /\
  exists db',
    delete_task (Task.id r) db = (Return true, db') /\
    get_task_by_id (Task.id r) db' = (Return None, db') /\
    (forall x, In x (tasks db') <-> In x (tasks db) /\ x <> r) /\
    S (List.length (tasks db')) = List.length (tasks db) /\
    seq db' = seq db.
Proof.
  split.
  - intros task_id db0 _. rewrite delete_task_eq. cbn [fst].
    eexists. split; [reflexivity | apply rowcount_positive].
  - destruct (reachable_wf _ Hdb) as (_ & Hids & _).
    rewrite delete_task_eq. cbv zeta.
    assert (Hcount : (0 <? List.length (tasks db) -
                       List.length (filter (fun x => negb (Task.id x =? Task.id r)%Z)
                                      (tasks db)))%nat = true).
    { apply rowcount_positive. now exists r. }
    rewrite Hcount. eexists. split; [reflexivity|].
    cbn [tasks seq]. split; [|split; [|split; [|reflexivity]]].
    + rewrite get_task_by_id_eq. cbn [tasks]. f_equal. f_equal.
      apply find_none_iff. intros x Hx. apply filter_In in Hx.
      destruct Hx as [_ Hx].
      destruct (Z.eqb_spec (Task.id x) (Task.id r)); [discriminate | assumption].
    + intros x. rewrite filter_In. split.
      * intros [Hx Hne]. split; [assumption|]. intros ->.
        rewrite Z.eqb_refl in Hne. discriminate.
      * intros [Hx Hne]. split; [assumption|].
        destruct (Z.eqb_spec (Task.id x) (Task.id r)) as [E|E]; [|reflexivity].
        exfalso. apply Hne. now apply (same_id_same_row (tasks db)).
    + now apply delete_one_length.
Qed.

Lemma delete_task_removes_exactly_one_witness :
  let db :=
    snd (add_task "2024-05-02T10:00:00" "b" "" "completed"
           (snd (add_task "2024-05-01T10:00:00" "a" "" "pending" empty_db))) in
  let r := Task.mk 1 "a" (Some "") "pending" "2024-05-01T10:00:00" None in
  exists db',
    delete_task 1 db = (Return true, db') /\
    get_task_by_id 1 db' = (Return None, db') /\
    (forall x, In x (tasks db') <-> In x (tasks db) /\ x <> r) /\
    S (List.length (tasks db')) = List.length (tasks db) /\
    seq db' = seq db.
Proof.
  intros db r.
  refine (proj2 (delete_task_removes_exactly_one db r _ _)).
  - apply reachable_add, reachable_add, reachable_init.
  - simpl. now left.
Defined.

(** X4. Ids are never handed out twice: on a reachable store, whatever
    writing calls follow (deletions included), the id returned by a later
    successful [add_task] is larger than the id of every task stored
    before. *)
Theorem add_task_never_reuses_an_id db db' r now title description status task_id
    (Hdb : reachable db) (Hstored : In r (tasks db))
    (Hlater : evolves db db')
    (Hadded : fst (add_task now title description status db') = Return task_id) :
  (Task.id r < task_id)%Z.
Proof.
  destruct (reachable_wf _ Hdb) as (Hrows & _).
  rewrite Forall_forall in Hrows. destruct (Hrows r Hstored) as (Hid & _).
  pose proof (evolves_seq _ _ Hlater) as Hseq.
  destruct (add_task_cases now title description status db') as [E|[msg E]];
    rewrite E in Hadded; cbn [fst] in Hadded; [|discriminate].
  injection Hadded as <-. lia.
Qed.

Lemma add_task_never_reuses_an_id_witness :
  let db := snd (add_task "2024-05-01T10:00:00" "a" "" "pending" empty_db) in
  let db' := snd (delete_task 1 db) in
  get_task_by_id 1 db' = (Return None, db') /\
  fst (add_task "2024-05-02T10:00:00" "b" "" "pending" db') = Return 2%Z /\
  (1 < 2)%Z.
Proof.
  intros db db'. split; [reflexivity|]. split; [reflexivity|].
  refine (add_task_never_reuses_an_id db db'
            (Task.mk 1 "a" (Some "") "pending" "2024-05-01T10:00:00" None)
            "2024-05-02T10:00:00" "b" "" "pending" 2%Z _ _ _ _).
  - apply reachable_add, reachable_init.
  - simpl. now left.
  - apply evolves_delete, evolves_refl.
  - reflexivity.
Defined.

(** X5. On a reachable store, [update_task] on a stored task whose merged
    values pass validation returns [True]; afterwards the task carries the
    trimmed merged title and description and the merged status, its id and
    [created_at] are the old ones and [updated_at] is the time of the call.
    No other row changes, no row is added or removed, and the id counter
    stays. *)
Theorem update_task_writes_merged_values
    db now r title description status new_description
    (Hdb : reachable db) (Hstored : In r (tasks db))
    (Hmerged : match description with
               | Some d => Some d
               | None => Task.description r
               end = Some new_description)
    (Hvalid :
       ~ invalid (match title with Some t => t | None => Task.title r end)
                 new_description
                 (match status with Some s => s | None => Task.status r end)) :
  exists db',
    update_task now (Task.id r) title description status db = (Return true, db') /\
    get_task_by_id (Task.id r) db' =
    (Return
       (Some (Task.mk (Task.id r)
                (Py.strip (match title with Some t => t | None => Task.title r end))
                (Some (Py.strip new_description))
                (match status with Some s => s | None => Task.status r end)
                (Task.created_at r) (Some now))), db') /\
    (forall x, Task.id x <> Task.id r ->
               (In x (tasks db') <-> In x (tasks db))) /\
    map Task.id (tasks db') = map Task.id (tasks db) /\
    seq db' = seq db.
Proof.
  pose proof (reachable_wf _ Hdb) as Hwf.
  pose proof Hwf as (_ & Hids & _).
  apply validate_returns in Hvalid.
  pose proof (find_by_id db r Hids Hstored) as F.
  destruct (update_task_stored db now r title description status
              new_description Hwf Hstored Hmerged Hvalid) as (db' & Hu & Hg & _).
  exists db'. split; [exact Hu|]. split; [exact Hg|].
  rewrite (update_task_returns now (Task.id r) title description status db r
             new_description F Hmerged Hvalid) in Hu.
  injection Hu as <-. cbn [tasks seq]. split; [|split; [|reflexivity]].
  - intros x Hx. rewrite in_map_iff. split.
    + intros (y & Ey & Hy).
      destruct (Z.eqb_spec (Task.id y) (Task.id r)) as [E|E]; [|now subst].
      exfalso. apply Hx. rewrite <- Ey. exact E.
    + intros Hin. exists x. split; [|assumption].
      destruct (Z.eqb_spec (Task.id x) (Task.id r)); [contradiction|reflexivity].
  - rewrite map_map. apply map_ext. intros x.
    now destruct (Task.id x =? Task.id r)%Z.
Qed.

Lemma update_task_writes_merged_values_witness :
  let db :=
    snd (add_task "2024-05-02T10:00:00" "b" "" "completed"
           (snd (add_task "2024-05-01T10:00:00" "a" "x" "pending" empty_db))) in
  exists db',
    update_task "2024-05-03T10:00:00" 1 (Some " Updated ") None (Some "completed") db
    = (Return true, db') /\
    get_task_by_id 1 db' =
    (Return (Some (Task.mk 1 "Updated" (Some "x") "completed"
                           "2024-05-01T10:00:00" (Some "2024-05-03T10:00:00"))),
     db') /\
    (forall x, Task.id x <> 1%Z -> (In x (tasks db') <-> In x (tasks db))) /\
    map Task.id (tasks db') = map Task.id (tasks db) /\
    seq db' = seq db.
Proof.
  intros db.
  refine (update_task_writes_merged_values db "2024-05-03T10:00:00"
            (Task.mk 1 "a" (Some "x") "pending" "2024-05-01T10:00:00" None)
            (Some " Updated ") None (Some "completed") "x" _ _ _ _).
  - apply reachable_add, reachable_add, reachable_init.
  - simpl. now left.
  - reflexivity.
  - apply validate_returns. reflexivity.
Defined.

(** X6. In a reachable store ids are positive, bounded by the id counter and
    pairwise distinct, so [get_task_by_id] returns a row exactly when that
    row is stored under the id. *)
Theorem get_task_by_id_finds_the_stored_row db (Hdb : reachable db) :
  NoDup (map Task.id (tasks db)) /\
  (forall r, In r (tasks db) -> (0 < Task.id r <= seq db)%Z) /\
  (forall task_id r,
     get_task_by_id task_id db = (Return (Some r), db) <->
     In r (tasks db) /\ Task.id r = task_id).
Proof.
  destruct (reachable_wf _ Hdb) as (Hrows & Hids & _).
  split; [assumption|]. split.
  - intros r Hr. rewrite Forall_forall in Hrows. now destruct (Hrows r Hr).
  - intros task_id r. rewrite get_task_by_id_eq. split.
    + intros E. assert (F : find (fun x => Task.id x =? task_id)%Z (tasks db)
                            = Some r) by congruence.
      apply find_some in F. destruct F as [Hr E']. split; [assumption|lia].
    + intros [Hr <-]. now rewrite (find_by_id db r Hids Hr).
Qed.

Lemma get_task_by_id_finds_the_stored_row_witness :
  let db :=
    snd (add_task "2024-05-02T10:00:00" "b" "" "completed"
           (snd (add_task "2024-05-01T10:00:00" "a" "" "pending" empty_db))) in
  let r := Task.mk 2 "b" (Some "") "completed" "2024-05-02T10:00:00" None in
  NoDup (map Task.id (tasks db)) /\
  (get_task_by_id 2 db = (Return (Some r), db) <->
   In r (tasks db) /\ Task.id r = 2%Z).
Proof.
  intros db r.
  assert (Hdb : reachable db) by apply reachable_add, reachable_add, reachable_init.
  destruct (get_task_by_id_finds_the_stored_row db Hdb) as (H1 & _ & H3).
  split; [exact H1 | exact (H3 2%Z r)].
Defined.

(** X7. In a reachable store every title is non-empty, has no leading or
    trailing whitespace and at most 200 characters; every description is
    present (never NULL), has no leading or trailing whitespace and at most
    1000 characters. *)
Theorem stored_text_is_trimmed_and_bounded db r
    (Hdb : reachable db) (Hstored : In r (tasks db)) :
  Task.title r <> "" /\
  head_not_space (Task.title r) /\
  last_not_space (Task.title r) /\
  String.length (Task.title r) <= 200 /\
  exists d,
    Task.description r = Some d /\
    head_not_space d /\ last_not_space d /\ String.length d <= 1000.
Proof.
  destruct (reachable_wf _ Hdb) as (Hrows & _).
  rewrite Forall_forall in Hrows.
  destruct (Hrows r Hstored) as (_ & Ht & d & Hd & Hds & Hv).
  apply validate_returns in Hv. unfold invalid in Hv.
  destruct (strip_trimmed (Task.title r)) as [Hh Hl]. rewrite Ht in Hh, Hl.
  destruct (strip_trimmed d) as [Hdh Hdl]. rewrite Hds in Hdh, Hdl.
  split; [intros E; apply Hv; left; now rewrite Ht|].
  split; [assumption|]. split; [assumption|]. split; [lia|].
  exists d. repeat split; try assumption. lia.
Qed.

Lemma stored_text_is_trimmed_and_bounded_witness :
  let r := Task.mk 1 "a b" (Some "c") "pending" "2024-05-01T10:00:00" None in
  Task.title r <> "" /\
  head_not_space (Task.title r) /\
  last_not_space (Task.title r) /\
  String.length (Task.title r) <= 200 /\
  exists d,
    Task.description r = Some d /\
    head_not_space d /\ last_not_space d /\ String.length d <= 1000.
Proof.
  refine (stored_text_is_trimmed_and_bounded
            (snd (add_task "2024-05-01T10:00:00" "  a b " " c " "pending" empty_db))
            _ _ _).
  - apply reachable_add, reachable_init.
  - simpl. now left.
Defined.

(** X8. On a reachable store [update_task], called with an id of the signed
    64-bit range, either returns or raises [ValidationError].  The guarantee rests on descriptions never being
    NULL: on any store, for a row with a NULL description, an update that
    supplies no description and whose title and status pass validation
    raises [AttributeError] and writes nothing. *)
Theorem update_task_raises_only_validation_errors :
  (forall db now task_id title description status,
     reachable db -> int64 task_id ->
     (exists b,
        fst (update_task now task_id title description status db) = Return b) \/
     (exists msg,
        fst (update_task now task_id title description status db)
        = Raise (ValidationError msg))) /\
  (forall db now task_id title status r,
     fst (get_task_by_id task_id db) = Return (Some r) ->
     Task.description r = None ->
     ~ invalid (match title with Some t => t | None => Task.title r end) ""
               (match status with Some s => s | None => Task.status r end) ->
     update_task now task_id title None status db = (Raise AttributeError, db)).
Proof.
  split.
  - intros db now task_id title description status Hdb _.
    destruct (reachable_wf _ Hdb) as (Hrows & _).
    rewrite Forall_forall in Hrows.
    destruct (find (fun x => Task.id x =? task_id)%Z (tasks db)) as [r|] eqn:F.
    2:{ left. exists false. now rewrite (update_task_missing _ _ _ _ _ _ F). }
    pose proof (find_some _ _ F) as [Hr _].
    destruct (Hrows r Hr) as (_ & _ & d0 & Hd0 & _).
    assert (D : exists d,
               match description with
               | Some d => Some d | None => Task.description r end = Some d).
    { destruct description as [d|]; [now exists d | now exists d0]. }
    destruct D as [d D].
    destruct (validate_cases
                (match title with Some t => t | None => Task.title r end)
                (match status with Some s => s | None => Task.status r end)
                (Some d)) as [R|[msg R]].
    + left. exists true.
      now rewrite (update_task_returns now task_id title description status
                     db r d F D R).
    + right. exists msg. rewrite <- D in R.
      now rewrite (update_task_raises now task_id title description status
                     db r _ F R).
  - intros db now task_id title status r F Hnull Hvalid.
    rewrite get_task_by_id_eq in F. cbn [fst] in F.
    assert (F' : find (fun x => Task.id x =? task_id)%Z (tasks db) = Some r)
      by congruence.
    apply validate_returns in Hvalid.
    assert (R : _validate_task_data
                  (match title with Some t => t | None => Task.title r end)
                  (match status with Some s => s | None => Task.status r end)
                  None = Return tt).
    { unfold _validate_task_data in *. cbn [String.eqb negb andb] in Hvalid.
      exact Hvalid. }
    unfold update_task, bind, lift. rewrite get_task_by_id_eq, F', Hnull, R.
    reflexivity.
Qed.

Lemma update_task_raises_only_validation_errors_witness :
  let legacy :=
    {| tasks := [Task.mk 1 "a" None "pending" "2024-05-01T10:00:00" None];
       seq := 1 |} in
  update_task "2024-05-02T10:00:00" 1 (Some "b") None None legacy
  = (Raise AttributeError, legacy) /\
  ((exists b,
      fst (update_task "2024-05-02T10:00:00" 1 (Some " ") None None
             (snd (add_task "2024-05-01T10:00:00" "a" "" "pending" empty_db)))
      = Return b) \/
   (exists msg,
      fst (update_task "2024-05-02T10:00:00" 1 (Some " ") None None
             (snd (add_task "2024-05-01T10:00:00" "a" "" "pending" empty_db)))
      = Raise (ValidationError msg))).
Proof.
  intros legacy. split.
  - apply (proj2 update_task_raises_only_validation_errors legacy
             "2024-05-02T10:00:00" 1%Z (Some "b") None
             (Task.mk 1 "a" None "pending" "2024-05-01T10:00:00" None)).
    + reflexivity.
    + reflexivity.
    + apply validate_returns. reflexivity.
  - apply (proj1 update_task_raises_only_validation_errors).
    + apply reachable_add, reachable_init.
    + unfold int64. lia.
Defined.

(** X9. [_validate_task_data] reports the first check that fails, in the
    order blank title, long title, long description, unknown status; a
    description of [None] is not checked at all and validates like the empty
    description. *)
Theorem validation_reports_the_first_failed_check title status description :
  (Py.strip title = "" ->
   _validate_task_data title status description
   = Raise (ValidationError "Title cannot be empty")) /\
  (Py.strip title <> "" -> 200 < String.length title ->
   _validate_task_data title status description
   = Raise (ValidationError "Title too long (max 200 characters)")) /\
  (forall d,
     description = Some d ->
     Py.strip title <> "" -> String.length title <= 200 ->
     1000 < String.length d ->
     _validate_task_data title status description
     = Raise (ValidationError "Description too long (max 1000 characters)")) /\
  (Py.strip title <> "" -> String.length title <= 200 ->
   (forall d, description = Some d -> String.length d <= 1000) ->
   ~ In status valid_statuses ->
   _validate_task_data title status description
   = Raise (ValidationError
              "Invalid status. Must be one of: pending, in_progress, completed, high, urgent")) /\
  _validate_task_data title status None
  = _validate_task_data title status (Some "").
Proof.
  assert (Hblank : Py.strip title = "" ->
                   ((title =? "") || (Py.strip title =? "")) = true).
  { intros ->. apply orb_true_r. }
  assert (Hfilled : Py.strip title <> "" ->
                    ((title =? "") || (Py.strip title =? "")) = false).
  { intros H. apply orb_false_iff. split; apply String.eqb_neq; [|assumption].
    intros ->. now apply H. }
  assert (Hshort : String.length title <= 200 ->
                   (200 <? String.length title)%nat = false)
    by (intros H; now apply Nat.ltb_ge).
  unfold _validate_task_data. repeat split.
  - intros H. now rewrite (Hblank H).
  - intros H Hl. rewrite (Hfilled H). apply Nat.ltb_lt in Hl. now rewrite Hl.
  - intros d -> H Hl Hd. rewrite (Hfilled H), (Hshort Hl).
    destruct (String.eqb_spec d "") as [->|_]; [simpl in Hd; lia|].
    apply Nat.ltb_lt in Hd. now rewrite Hd.
  - intros H Hl Hd Hs. rewrite (Hfilled H), (Hshort Hl).
    assert (E : match description with
                | Some d => negb (d =? "") && (1000 <? String.length d)%nat
                | None => false
                end = false).
    { destruct description as [d|]; [|reflexivity].
      specialize (Hd d eq_refl). apply andb_false_iff. right.
      now apply Nat.ltb_ge. }
    rewrite E.
    destruct (existsb (String.eqb status) valid_statuses) eqn:Ev; [|reflexivity].
    apply in_valid_statuses in Ev. contradiction.
Qed.

Lemma validation_reports_the_first_failed_check_witness :
  _validate_task_data (times " " 300) "nope" (Some (times "d" 2000))
  = Raise (ValidationError "Title cannot be empty") /\
  _validate_task_data (times "x" 300) "nope" (Some (times "d" 2000))
  = Raise (ValidationError "Title too long (max 200 characters)") /\
  _validate_task_data "x" "nope" (Some (times "d" 2000))
  = Raise (ValidationError "Description too long (max 1000 characters)") /\
  _validate_task_data "x" "nope" (Some "d")
  = Raise (ValidationError
             "Invalid status. Must be one of: pending, in_progress, completed, high, urgent").
Proof.
  split; [|split; [|split]].
  - apply (proj1 (validation_reports_the_first_failed_check
                    (times " " 300) "nope" (Some (times "d" 2000)))).
    reflexivity.
  - apply (proj1 (proj2 (validation_reports_the_first_failed_check
                           (times "x" 300) "nope" (Some (times "d" 2000))))).
    + vm_compute. discriminate.
    + vm_compute. lia.
  - apply (proj1 (proj2 (proj2 (validation_reports_the_first_failed_check
                                  "x" "nope" (Some (times "d" 2000)))))
             (times "d" 2000)).
    + reflexivity.
    + vm_compute. discriminate.
    + vm_compute. lia.
    + vm_compute. lia.
  - apply (proj1 (proj2 (proj2 (proj2 (validation_reports_the_first_failed_check
                                         "x" "nope" (Some "d")))))).
    + vm_compute. discriminate.
    + vm_compute. lia.
    + intros d [= <-]. vm_compute. lia.
    + simpl. intros [H|[H|[H|[H|[H|[]]]]]]; discriminate H.
Defined.

(** X10. The priority listing is the high listing and the urgent listing
    put together: [get_priority_tasks] returns, up to order, the rows of
    [filter_by_status("high")] followed by those of
    [filter_by_status("urgent")]. *)
Theorem priority_tasks_are_the_two_filters db :
  exists high urgent priority,
    filter_by_status "high" db = (Return high, db) /\
    filter_by_status "urgent" db = (Return urgent, db) /\
    get_priority_tasks db = (Return priority, db) /\
    Permutation priority (high ++ urgent) /\
    List.length priority = List.length high + List.length urgent.
Proof.
  do 3 eexists. split; [reflexivity|]. split; [reflexivity|].
  split; [reflexivity|].
  assert (P : Permutation
                (Sql.order_by_created_at_desc
                   (filter (fun r => (Task.status r =? value HIGH) ||
                                     (Task.status r =? value URGENT)) (tasks db)))
                (Sql.order_by_created_at_desc
                   (filter (fun r => Task.status r =? "high") (tasks db)) ++
                 Sql.order_by_created_at_desc
                   (filter (fun r => Task.status r =? "urgent") (tasks db)))).
  { rewrite !order_by_perm. cbn [value].
    apply (filter_or_perm (fun r => Task.status r =? "high")
                          (fun r => Task.status r =? "urgent")).
    intros x Hh Hu. apply String.eqb_eq in Hh, Hu. congruence. }
  split; [exact P|].
  rewrite <- length_app. now apply Permutation_length.
Qed.

(** X11. A search term that is empty, or that is the wildcard [%], selects
    everything: [search_tasks("")] and [search_tasks("%")] return what
    [get_all_tasks] returns. *)
Theorem search_tasks_without_a_term_lists_everything db :
  search_tasks "" db = get_all_tasks db /\
  search_tasks "%" db = get_all_tasks db.
Proof.
  assert (H2 : forall s, Sql.patternCompare "%%" s = true).
  { intros s. apply like_percent_iff. exists "", s. split; [reflexivity|].
    apply like_any. }
  assert (H3 : forall s, Sql.patternCompare "%%%" s = true).
  { intros s. apply like_percent_iff. exists "", s. split; [reflexivity|].
    apply H2. }
  unfold search_tasks, get_all_tasks, _get_connection, Sql.select_where,
    Sql.select_all.
  split; rewrite (scan_total _ (fun _ => true)); try reflexivity;
    intros r _; unfold Sql.like; cbn [String.append];
    change (50000 <? _)%N with false; cbv iota; f_equal.
  - apply H2.
  - apply H3.
Qed.

(** X12. [created_at] is written once: on a reachable store, whatever
    writing calls follow, a task found later under the id of a stored task
    has that task's [created_at]. *)
Theorem created_at_never_changes db db' r r'
    (Hdb : reachable db) (Hstored : In r (tasks db))
    (Hlater : evolves db db')
    (Hfound : In r' (tasks db')) (Hid : Task.id r' = Task.id r) :
  Task.created_at r' = Task.created_at r.
Proof.
  destruct (reachable_wf _ Hdb) as (Hrows & Hids & _).
  rewrite Forall_forall in Hrows. destruct (Hrows r Hstored) as (Hbound & _).
  revert r' Hfound Hid.
  induction Hlater as [|now title description status db' Hev IH
                       |now task_id title description status db' Hev IH
                       |task_id db' Hev IH]; intros r' Hfound Hid.
  - now rewrite (same_id_same_row (tasks db) r' r Hids Hfound Hstored Hid).
  - pose proof (evolves_seq _ _ Hev) as Hseq.
    destruct (add_task_cases now title description status db') as [E|[msg E]];
      rewrite E in Hfound; cbn [snd tasks] in Hfound; [|now apply IH].
    apply in_app_iff in Hfound. destruct Hfound as [H|[<-|[]]]; [now apply IH|].
    cbn [Task.id] in Hid. lia.
  - destruct (update_task_cases now task_id title description status db')
      as [E|(x & d & _ & _ & _ & E)];
      rewrite E in Hfound; cbn [snd tasks] in Hfound; [now apply IH|].
    apply in_map_iff in Hfound. destruct Hfound as (y & Ey & Hy). subst r'.
    destruct (Task.id y =? task_id)%Z;
      unfold updated in *; cbn [Task.id Task.created_at] in *; now apply IH.
  - rewrite delete_task_eq in Hfound. cbn [snd tasks] in Hfound.
    apply filter_In in Hfound. now apply IH.
Qed.

Lemma created_at_never_changes_witness :
  let db := snd (add_task "2024-05-01T10:00:00" "a" "" "pending" empty_db) in
  let db' :=
    snd (update_task "2024-05-03T10:00:00" 1 (Some "c") None None
           (snd (add_task "2024-05-02T10:00:00" "b" "" "pending" db))) in
  let r := Task.mk 1 "a" (Some "") "pending" "2024-05-01T10:00:00" None in
  let r' := Task.mk 1 "c" (Some "") "pending" "2024-05-01T10:00:00"
                    (Some "2024-05-03T10:00:00") in
  In r (tasks db) /\ In r' (tasks db') /\
  Task.created_at r' = Task.created_at r.
Proof.
  intros db db' r r'.
  assert (Hr : In r (tasks db)) by (simpl; now left).
  assert (Hr' : In r' (tasks db')) by (simpl; now left).
  split; [exact Hr|]. split; [exact Hr'|].
  refine (created_at_never_changes db db' r r' _ Hr _ Hr' _).
  - apply reachable_add, reachable_init.
  - apply evolves_update, evolves_add, evolves_refl.
  - reflexivity.
Defined.

(** X13. A task added with a timestamp later than every stored [created_at]
    comes first in [get_all_tasks]; the rest of the listing is the rows
    stored before, in descending order of [created_at]. *)
Theorem add_task_heads_the_listing db now title description status
    (Hvalid : ~ invalid title description status)
    (Hlater : forall x, In x (tasks db) ->
                        String.ltb (Task.created_at x) now = true) :
  exists task_id db' r rest,
    add_task now title description status db = (Return task_id, db') /\
    get_all_tasks db' = (Return (r :: rest), db') /\
    Task.id r = task_id /\
    Task.title r = Py.strip title /\
    Task.created_at r = now /\
    Permutation rest (tasks db) /\
    StronglySorted newer_first rest.
Proof.
  apply validate_returns in Hvalid.
  rewrite (add_task_returns now title description status db Hvalid).
  set (r := Task.mk (seq db + 1) (Py.strip title) (Some (Py.strip description))
                    status now None).
  assert (E : forall l,
             (forall x, In x l -> String.ltb (Task.created_at x) now = true) ->
             fold_right Sql.insert_desc [r] l
             = r :: Sql.order_by_created_at_desc l).
  { induction l as [|x l IH]; intros H; [reflexivity|]. cbn [fold_right].
    rewrite IH by (intros y Hy; apply H; now right).
    cbn [Sql.insert_desc]. change (Task.created_at r) with now.
    now rewrite (H x (or_introl eq_refl)). }
  exists (seq db + 1)%Z. eexists. exists r, (Sql.order_by_created_at_desc (tasks db)).
  split; [reflexivity|]. split.
  - unfold get_all_tasks, _get_connection, Sql.select_all. cbn [tasks].
    rewrite filter_true. unfold Sql.order_by_created_at_desc at 1.
    rewrite fold_right_app. cbn [fold_right Sql.insert_desc].
    now rewrite (E _ Hlater).
  - repeat split; [apply order_by_perm | apply order_by_sorted].
Qed.

Lemma add_task_heads_the_listing_witness :
  let db :=
    snd (add_task "2024-05-02T10:00:00" "b" "" "completed"
           (snd (add_task "2024-05-03T10:00:00" "a" "" "pending" empty_db))) in
  exists task_id db' r rest,
    add_task "2024-05-04T10:00:00" "c" "" "high" db = (Return task_id, db') /\
    get_all_tasks db' = (Return (r :: rest), db') /\
    Task.id r = task_id /\
    Task.title r = Py.strip "c" /\
    Task.created_at r = "2024-05-04T10:00:00" /\
    Permutation rest (tasks db) /\
    StronglySorted newer_first rest.
Proof.
  intros db.
  refine (add_task_heads_the_listing db "2024-05-04T10:00:00" "c" "" "high" _ _).
  - apply validate_returns. reflexivity.
  - simpl. intros x [<-|[<-|[]]]; reflexivity.
Defined.

(** X14. Adding and then deleting is a round trip on the rows: on a
    reachable store, after a successful [add_task] the [delete_task] of the
    returned id returns [True], the id is no longer found, and the stored rows
    are exactly those from before the addition; only the id counter has
    advanced. *)
Theorem add_then_delete_restores_the_rows db now title description status
    (Hdb : reachable db) (Hvalid : ~ invalid title description status) :
  exists task_id db1 db2,
    add_task now title description status db = (Return task_id, db1) /\
    delete_task task_id db1 = (Return true, db2) /\
    get_task_by_id task_id db2 = (Return None, db2) /\
    tasks db2 = tasks db /\
    seq db2 = (seq db + 1)%Z.
Proof.
  destruct (reachable_wf _ Hdb) as (Hrows & _).
  rewrite Forall_forall in Hrows.
  assert (Hfresh : forall x, In x (tasks db) -> Task.id x <> (seq db + 1)%Z).
  { intros x Hx. destruct (Hrows x Hx) as (Hid & _). lia. }
  apply validate_returns in Hvalid.
  rewrite (add_task_returns now title description status db Hvalid).
  set (r := Task.mk (seq db + 1) (Py.strip title) (Some (Py.strip description))
                    status now None).
  assert (Hkept : filter (fun x => negb (Task.id x =? seq db + 1)%Z)
                         (tasks db ++ [r]) = tasks db).
  { rewrite filter_app, (filter_none_matching _ _ Hfresh).
    cbn [filter r Task.id]. rewrite Z.eqb_refl. apply app_nil_r. }
  do 3 eexists. split; [reflexivity|].
  rewrite delete_task_eq. cbv zeta. cbn [tasks seq]. rewrite Hkept.
  rewrite length_app. cbn [List.length].
  replace (List.length (tasks db) + 1 - List.length (tasks db))%nat with 1%nat
    by lia.
  split; [reflexivity|]. cbn [tasks seq]. split; [|split; reflexivity].
  rewrite get_task_by_id_eq. cbn [tasks].
  now rewrite (proj2 (find_none_iff _ _) Hfresh).
Qed.

Lemma add_then_delete_restores_the_rows_witness :
  let db := snd (add_task "2024-05-01T10:00:00" "a" "" "pending" empty_db) in
  exists task_id db1 db2,
    add_task "2024-05-02T10:00:00" " To Delete " "Desc" "pending" db
    = (Return task_id, db1) /\
    delete_task task_id db1 = (Return true, db2) /\
    get_task_by_id task_id db2 = (Return None, db2) /\
    tasks db2 = tasks db /\
    seq db2 = (seq db + 1)%Z.
Proof.
  intros db.
  refine (add_then_delete_restores_the_rows db "2024-05-02T10:00:00"
            " To Delete " "Desc" "pending" _ _).
  - apply reachable_add, reachable_init.
  - apply validate_returns. reflexivity.
Defined.
